(** * Novel Nest: data access, session manager, hash router

    A shallow embedding of the TypeScript sources

    - [App.tsx]                    the hash-based [Router];
    - [context/AuthContext.tsx]    the [AuthProvider] session manager;
    - [services/mockData.ts]       the in-memory fixtures;
    - the mock [apiService]        (in-memory data-access layer);
    - [services/apiService.ts]     the remote [apiService] built on [fetchAPI];
    - the episodes API route       ([handler] over Prisma's [findMany]);

    followed by the properties the specification states about them.
    Of the fixtures, the users, the novels and the episodes are embedded;
    the reviews and the pre-threaded comments, and the two reads over
    them, are not needed by any property below and are left out.

    Conventions of the embedding.
    - A JavaScript string is a [string]; the code units that occur are in
      the ASCII range.
    - An integral JavaScript number is a [Z]; [NaN] is the [None] of an
      [option Z].  The embedding is exact on the safe integers (magnitude
      below 2^53), which cover every id; rounding beyond them is outside
      the model.
    - An instant (the time value of a [Date]) is a [Z] of milliseconds.
      Fields the code fills with [toISOString] of a computed instant are
      kept as that instant.
    - A settled promise is a [Promise]: [Resolved] with a value or
      [Rejected] with the thrown value.  [delay] and the event loop's
      timing are not modelled; [console] output is not modelled. *)

From stdpp Require Import base list strings gmap sorting.
From Stdlib Require Import ZArith QArith_base String Ascii DecimalString DecimalZ Lia.

Set Warnings "-register-all".

Local Open Scope string_scope.
Local Open Scope list_scope.
Local Open Scope Z_scope.

(* ===================================================================== *)
(** * JavaScript values and built-ins used by the sources                 *)
(* ===================================================================== *)

Module JS.

(** A thrown error object: its [name] (the class) and its [message]. *)
Record exn := Throw { name : string; message : string }.

Definition Error (msg : string) : exn := Throw "Error" msg.
Definition TypeError (msg : string) : exn := Throw "TypeError" msg.
Definition SyntaxError (msg : string) : exn := Throw "SyntaxError" msg.

(** The outcome of an asynchronous computation. *)
Inductive Promise (A : Type) : Type :=
| Resolved (a : A)
| Rejected (e : exn).
Arguments Resolved {A} a.
Arguments Rejected {A} e.

#[export] Instance Promise_ret : MRet Promise := fun A a => Resolved a.
#[export] Instance Promise_bind : MBind Promise := fun A B k p =>
  match p with
  | Resolved a => k a
  | Rejected e => Rejected e
  end.
#[export] Instance Promise_fmap : FMap Promise := fun A B f p =>
  match p with
  | Resolved a => Resolved (f a)
  | Rejected e => Rejected e
  end.

(** [T | null | undefined]. *)
Inductive Nullable (A : Type) : Type :=
| undefined
| null
| Present (a : A).
Arguments undefined {A}.
Arguments null {A}.
Arguments Present {A} a.

(** Truthiness of a nullable object reference. *)
Definition truthy {A} (v : Nullable A) : bool :=
  match v with Present _ => true | _ => false end.

(** [Array.prototype.find]: the first match, else [undefined]. *)
Definition Array_find {A} (p : A -> bool) (l : list A) : Nullable A :=
  match List.find p l with
  | Some a => Present a
  | None => undefined
  end.

(** [Array.prototype.slice(a, b)] for [0 <= a <= b]. *)
Definition Array_slice {A} (a b : nat) (l : list A) : list A :=
  take (b - a)%nat (drop a l).

(** A number that may be [-Infinity] (the value of [Math.max()] on no
    arguments). *)
Inductive number : Type :=
| NegInfinity
| Num (z : Z).

Definition number_max (a b : number) : number :=
  match a, b with
  | NegInfinity, _ => b
  | _, NegInfinity => a
  | Num x, Num y => Num (Z.max x y)
  end.

(** [Math.max(...l)]. *)
Definition Math_max (l : list number) : number :=
  foldr number_max NegInfinity l.

(** [a + k] for a finite [k]. *)
Definition number_plus (a : number) (k : Z) : number :=
  match a with
  | NegInfinity => NegInfinity
  | Num x => Num (x + k)
  end.

(** ** Strings *)

(** [s.startsWith(p)]. *)
Definition startsWith (s p : string) : bool := String.prefix p s.

Fixpoint string_drop (n : nat) (s : string) : string :=
  match n, s with
  | O, _ => s
  | S n', String _ s' => string_drop n' s'
  | S _, EmptyString => EmptyString
  end.

(** [s.replace(pat, rep)] for a string pattern and a replacement without
    dollar patterns: the first occurrence only. *)
Fixpoint replace (pat rep s : string) : string :=
  if String.prefix pat s then rep +:+ string_drop (String.length pat) s
  else match s with
       | EmptyString => EmptyString
       | String c s' => String c (replace pat rep s')
       end.

(** [s.split(sep)] for a separator of one code unit. *)
Fixpoint split (sep : ascii) (s : string) : list string :=
  match s with
  | EmptyString => [EmptyString]
  | String c s' =>
      if Ascii.eqb c sep then EmptyString :: split sep s'
      else match split sep s' with
           | h :: t => String c h :: t
           | [] => [String c EmptyString]
           end
  end.

(** [s.repeat(n)]. *)
Fixpoint repeat (s : string) (n : nat) : string :=
  match n with
  | O => EmptyString
  | S n' => s +:+ repeat s n'
  end.

(** [Number.isSafeInteger(n)] for an integral [n]: the integers below
    2^53 in magnitude.  Each of them is a Number, and reading and
    printing them is exact. *)
Definition isSafeInteger (n : Z) : bool :=
  (- (2 ^ 53 - 1) <=? n) && (n <=? 2 ^ 53 - 1).

(** [String(n)] of a safe integer [n]: its decimal digits, with a
    leading minus sign when negative.  Beyond the safe range a Number
    prints the shortest digits that read back to it, in exponent form
    from 10^21 on; that is not modelled, and what is stated of a printed
    id is stated for a safe integer. *)
Definition Number_toString (n : Z) : string :=
  NilEmpty.string_of_int (Z.to_int n).

(** ** [parseInt] *)

(** White space that [parseInt] skips (ASCII range). *)
Definition isWhiteSpace (c : ascii) : bool :=
  let n := nat_of_ascii c in
  bool_decide (n = 9 \/ n = 10 \/ n = 11 \/ n = 12 \/ n = 13 \/ n = 32)%nat.

Fixpoint skipWhiteSpace (s : string) : string :=
  match s with
  | String c s' => if isWhiteSpace c then skipWhiteSpace s' else s
  | EmptyString => s
  end.

(** The value of a code unit as a digit: 0-9, then a-z or A-Z for 10-35. *)
Definition digitValue (c : ascii) : option Z :=
  let n := Z.of_nat (nat_of_ascii c) in
  if (48 <=? n) && (n <=? 57) then Some (n - 48)
  else if (97 <=? n) && (n <=? 122) then Some (n - 87)
  else if (65 <=? n) && (n <=? 90) then Some (n - 55)
  else None.

(** The longest prefix of radix-[R] digits, read as a number; [acc] is
    the value read so far, [None] while no digit has been read. *)
Fixpoint readDigits (R : Z) (s : string) (acc : option Z) : option Z :=
  match s with
  | EmptyString => acc
  | String c s' =>
      match digitValue c with
      | Some d =>
          if d <? R then readDigits R s' (Some (default 0 acc * R + d))
          else acc
      | None => acc
      end
  end.

Definition hasHexPrefix (s : string) : bool :=
  String.prefix "0x" s || String.prefix "0X" s.

(** [parseInt(s, radix)]; [radix = None] is an omitted radix, and [None]
    as result is [NaN].  The result is the integer the digits denote,
    which is the Number the code gets whenever that integer is safe
    ([isSafeInteger]).  From a longer run of digits the code gets the
    nearest double or an infinity: never [NaN], and never a safe
    integer.  So what is stated of a parsed id is stated for a safe
    integer, or for an id of a range within the safe ones. *)
Definition parseInt (s : string) (radix : option Z) : option Z :=
  let S0 := skipWhiteSpace s in
  let '(sign, S1) :=
    match S0 with
    | String "-" r => (-1, r)
    | String "+" r => (1, r)
    | _ => (1, S0)
    end in
  let R0 := default 0 radix in
  if negb (R0 =? 0) && ((R0 <? 2) || (36 <? R0)) then None
  else
    let stripPrefix := (R0 =? 0) || (R0 =? 16) in
    let R1 := if R0 =? 0 then 10 else R0 in
    let '(R, S2) :=
      if stripPrefix && hasHexPrefix S1 then (16, string_drop 2 S1)
      else (R1, S1) in
    match readDigits R S2 None with
    | Some m => Some (sign * m)
    | None => None
    end.

Definition isNaN (n : option Z) : bool :=
  match n with None => true | Some _ => false end.

(** [parseInt(a[i], radix)] where [a[i]] may be [undefined]: the argument
    is first converted to a string. *)
Definition parseInt_at (a : list string) (i : nat) (radix : option Z)
  : option Z :=
  parseInt (default "undefined"%string (a !! i)) radix.

End JS.
Export JS.

(* ===================================================================== *)
(** * The entity types                                                    *)
(* ===================================================================== *)

Module types.

(** Modelled from the spec: [types.ts] is not among the sources.  The
    roles are the four of the specification; [UnknownRole] stands for
    any other value a stored identity may carry at run time (the
    [default] branch of the router's [switch]). *)
Inductive UserRole : Type :=
| READER
| WRITER
| ADMIN
| DEVELOPER
| UnknownRole (raw : string).

(** Modelled from the spec: the entities of [types.ts], with the fields
    the fixtures and the services use.  [Episode]'s [novel_id] and
    [title] are [ep_novel_id] and [ep_title] here. *)
Record User := {
  user_id : number;
  username : string;
  email : string;
  role : UserRole;
  created_at : string;
  profile_picture : option string;
  bio : option string
}.

Record Author := {
  author_user_id : Z;
  author_username : string
}.

Record Novel := {
  novel_id : Z;
  title : string;
  description : string;
  cover_image : string;
  tags : list string;
  status : string;
  last_update : Z;
  views : Z;
  likes : Z;
  rating : Q;
  author : Author
}.

Record Episode := {
  episode_id : Z;
  ep_novel_id : Z;
  ep_title : string;
  content : string;
  is_locked : bool;
  price : Z;
  release_date : Z
}.

#[export] Instance UserRole_eq_dec : EqDecision UserRole.
Proof. solve_decision. Defined.

End types.
Export types.

(* ===================================================================== *)
(** * [services/mockData.ts]                                              *)
(* ===================================================================== *)

Module mockData.

Definition ReaderJoe : User :=
  {| user_id := Num 1; username := "ReaderJoe"; email := "reader@test.com";
     role := READER; created_at := "2023-01-15T09:30:00Z";
     profile_picture := Some "https://picsum.photos/seed/user1/100/100";
     bio := None |}.

Definition WriterJane : User :=
  {| user_id := Num 2; username := "WriterJane"; email := "writer@test.com";
     role := WRITER; created_at := "2023-02-20T14:00:00Z";
     profile_picture := Some "https://picsum.photos/seed/user2/100/100";
     bio := Some "Avid writer of fantasy." |}.

Definition AdminAlex : User :=
  {| user_id := Num 3; username := "AdminAlex"; email := "admin@test.com";
     role := ADMIN; created_at := "2023-01-10T08:00:00Z";
     profile_picture := Some "https://picsum.photos/seed/user3/100/100";
     bio := None |}.

Definition DevSam : User :=
  {| user_id := Num 4; username := "DevSam"; email := "dev@test.com";
     role := DEVELOPER; created_at := "2023-03-05T18:45:00Z";
     profile_picture := Some "https://picsum.photos/seed/user4/100/100";
     bio := None |}.

(** The initial contents of [mockUsers]; [signup] pushes onto it. *)
Definition mockUsers : list User := [ReaderJoe; WriterJane; AdminAlex; DevSam].

(** The module's initialisers call [Date.now()] once per object they
    build.  [Init A] is an initialiser that starts after [k] readings of
    the clock and returns its value with the new count. *)
Definition Init (A : Type) : Type := nat -> A * nat.

Definition init_ret {A} (a : A) : Init A := fun k => (a, k).

Definition init_bind {A B} (m : Init A) (f : A -> Init B) : Init B :=
  fun k => let '(a, k') := m k in f a k'.

Notation "'do' x <- m ; f" := (init_bind m (fun x => f))
  (at level 20, x name, m at level 100, f at level 200, only parsing).

(** The callbacks of [Array.from] and [flatMap] run in index order. *)
Fixpoint init_map {A B} (f : A -> Init B) (l : list A) : Init (list B) :=
  match l with
  | [] => init_ret []
  | a :: l' => do b <- f a; do bs <- init_map f l'; init_ret (b :: bs)
  end.

(** [Array.from({ length: n }, (_, i) => f i)]. *)
Definition Array_from {A} (n : nat) (f : nat -> Init A) : Init (list A) :=
  init_map f (seq 0 n).

(** [l.flatMap(f)]. *)
Definition flatMap {A B} (f : A -> Init (list B)) (l : list A)
  : Init (list B) :=
  do ls <- init_map f l; init_ret (List.concat ls).

Section Fixture.

(** [now k] is the value of the [k]-th call of [Date.now()] made while
    the module is evaluated (counting from 0). *)
Variable now : nat -> Z.

Definition Date_now : Init Z := fun k => (now k, S k).

Definition novel_description : string :=
  "A thrilling adventure in a world of ancient magic and futuristic technology. A young hero must decode the secrets of a powerful artifact before it falls into the wrong hands.".

Definition init_mockNovels : Init (list Novel) :=
  Array_from 12 (fun i =>
    do t <- Date_now;
    init_ret
      {| novel_id := 101 + Z.of_nat i;
         title := "The Crimson Cipher " +:+ Number_toString (Z.of_nat i + 1);
         description := novel_description;
         cover_image := "https://picsum.photos/seed/novel"
                          +:+ Number_toString (Z.of_nat i) +:+ "/400/600";
         tags := ["Fantasy"; "Adventure"; "Sci-Fi"];
         status := if (Z.of_nat i mod 3 =? 0)%Z then "Completed" else "Ongoing";
         last_update := t - Z.of_nat i * 1000 * 3600 * 24;
         views := 16458 + Z.of_nat i * 123;
         likes := 2010 + Z.of_nat i * 45;
         rating := Qmake (45 - Z.of_nat i) 10;
         author := {| author_user_id := 2; author_username := "WriterJane" |}
      |}).

Definition episode_content : string :=
  "Lorem ipsum dolor sit amet, consectetur adipiscing elit. Quisque a libero sit amet tortor sagittis maximus nec eu felis. In hac habitasse platea dictumst. Sed vitae feugiat quam, id rhoncus ante. Vivamus rhoncus, justo eget ullamcorper feugiat, enim orci blandit ex, et malesuada enim nulla et ex. "
  +:+ JS.repeat "Lorem ipsum " 200.

Definition init_mockEpisodes (novels : list Novel) : Init (list Episode) :=
  flatMap (fun novel =>
    Array_from 5 (fun i =>
      do t <- Date_now;
      init_ret
        {| episode_id := novel_id novel * 100 + Z.of_nat i + 1;
           ep_novel_id := novel_id novel;
           ep_title := "Chapter " +:+ Number_toString (Z.of_nat i + 1)
                         +:+ ": The Discovery";
           content := episode_content;
           is_locked := bool_decide (Z.of_nat i > 2);
           price := 10;
           release_date := t - (5 - Z.of_nat i) * 1000 * 3600 * 24 * 7
        |})) novels.

(** The module body: [mockNovels] is built first, then [mockEpisodes]
    from it. *)
Definition init_module : Init (list Novel * list Episode) :=
  do novels <- init_mockNovels;
  do episodes <- init_mockEpisodes novels;
  init_ret (novels, episodes).

Definition mockNovels : list Novel := fst (fst (init_module 0%nat)).
Definition mockEpisodes : list Episode := snd (fst (init_module 0%nat)).

End Fixture.
End mockData.

(* ===================================================================== *)
(** * The mock [apiService] (in-memory data-access layer)                 *)
(* ===================================================================== *)

Module mockApiService.

Import mockData.

(** [delay(data)] resolves to [data] after a timeout. *)
Definition delay {A} (data : A) : Promise A := Resolved data.

(** [login(email, pass)] over the current contents of [mockUsers]. *)
Definition login (mockUsers : list User) (email pass : string)
  : Promise (Nullable User) :=
  let user := Array_find (fun u => String.eqb (types.email u) email) mockUsers in
  if truthy user then delay user
  else if String.eqb email "reader@test.com" then
    delay (Array_find (fun u => bool_decide (role u = READER)) mockUsers)
  else if String.eqb email "writer@test.com" then
    delay (Array_find (fun u => bool_decide (role u = WRITER)) mockUsers)
  else if String.eqb email "admin@test.com" then
    delay (Array_find (fun u => bool_decide (role u = ADMIN)) mockUsers)
  else if String.eqb email "dev@test.com" then
    delay (Array_find (fun u => bool_decide (role u = DEVELOPER)) mockUsers)
  else Rejected (Error "User not found").

(** The user [signup(username, email, pass)] builds; [isoNow] is the text
    of [new Date().toISOString()] and [random] the text of
    [Math.random()] at the call. *)
Definition newUser (mockUsers : list User) (username email : string)
    (isoNow random : string) : User :=
  {| user_id := number_plus (Math_max (map types.user_id mockUsers)) 1;
     username := username;
     email := email;
     role := READER;
     created_at := isoNow;
     profile_picture :=
       Some ("https://picsum.photos/seed/user" +:+ random +:+ "/100/100");
     bio := None |}.

(** [signup]: the new contents of [mockUsers] (after the [push]) and the
    promise returned. *)
Definition signup (mockUsers : list User) (username email pass : string)
    (isoNow random : string) : list User * Promise (Nullable User) :=
  let u := newUser mockUsers username email isoNow random in
  ((mockUsers ++ [u])%list, delay (Present u)).

Section Reads.

Variable now : nat -> Z.

Definition getRecommendedNovels : Promise (list Novel) :=
  delay (Array_slice 0 6 (mockNovels now)).

Definition getFantasyNovels : Promise (list Novel) :=
  delay (Array_slice 6 12 (mockNovels now)).

Definition getNovelById (id : Z) : Promise (Nullable Novel) :=
  delay (Array_find (fun n => novel_id n =? id) (mockNovels now)).

Definition getEpisodesByNovelId (novelId : Z) : Promise (list Episode) :=
  delay (List.filter (fun e => ep_novel_id e =? novelId) (mockEpisodes now)).

Definition getEpisode (novelId episodeId : Z) : Promise (Nullable Episode) :=
  delay (Array_find
           (fun e => (ep_novel_id e =? novelId) && (episode_id e =? episodeId))
           (mockEpisodes now)).

Definition getWriterNovels (writerId : Z) : Promise (list Novel) :=
  delay (List.filter (fun n => author_user_id (author n) =? writerId)
           (mockNovels now)).

End Reads.
End mockApiService.

(* ===================================================================== *)
(** * The episodes API route                                              *)
(* ===================================================================== *)

(** The Prisma client, by its documented contract: [findMany] returns the
    rows that satisfy [where], in the order [orderBy] asks for, and throws
    when the database cannot be queried or an argument is not a valid
    value of the column's type. *)
Module prisma.

Record Database := {
  connected : bool;
  episode : list Episode
}.

Definition release_le (a b : Episode) : Prop :=
  release_date a <= release_date b.

#[export] Instance release_le_dec a b : Decision (release_le a b).
Proof. unfold release_le. apply _. Defined.

(** The values of a column of type [Int], a 32-bit signed integer. *)
Definition isInt (i : Z) : bool :=
  (-2147483648 <=? i) && (i <=? 2147483647).

(** [prisma.episode.findMany({ where: { novel_id: id },
                               orderBy: { release_date: 'asc' } })];
    [id = None] is [NaN].  The column [novel_id] is an [Int]: an [id]
    that is [NaN] or does not fit in 32 bits is refused. *)
Definition episode_findMany (d : Database) (id : option Z)
  : Promise (list Episode) :=
  match id with
  | None =>
      Rejected (Throw "PrismaClientValidationError" "Invalid value for argument novel_id")
  | Some i =>
      if negb (isInt i) then
        Rejected (Throw "PrismaClientValidationError"
                    "Unable to fit integer value into an INT4 (32-bit signed integer)")
      else if connected d then
        Resolved (merge_sort release_le
                    (List.filter (fun e => ep_novel_id e =? i) (episode d)))
      else
        Rejected (Throw "PrismaClientInitializationError" "Can't reach database server")
  end.

End prisma.

Module episodesRoute.

Import prisma.

(** The parts of [NextApiRequest] the handler reads. *)
Record NextApiRequest := {
  method : string;
  query_novelId : string
}.

(** [NextApiResponse<Episode[] | { error: string }>] once sent. *)
Inductive Body : Type :=
| Episodes (episodes : list Episode)
| ErrorBody (error : string).

Record Sent := {
  statusCode : Z;
  body : Body
}.

Definition handler (d : Database) (req : NextApiRequest) : Sent :=
  let id := parseInt (query_novelId req) None in
  if negb (String.eqb (method req) "GET") then
    {| statusCode := 405; body := ErrorBody "Method not allowed" |}
  else
    match episode_findMany d id with
    | Resolved episodes => {| statusCode := 200; body := Episodes episodes |}
    | Rejected error =>
        {| statusCode := 500; body := ErrorBody "Failed to fetch episodes" |}
    end.

End episodesRoute.

(* ===================================================================== *)
(** * [services/apiService.ts]: the remote data-access layer              *)
(* ===================================================================== *)

(** Values that travel as JSON.  An object is the list of its own
    properties in insertion order, each key once. *)
Module JSON.

Inductive jsval : Type :=
| JNull
| JBool (b : bool)
| JNumber (z : Z)
| JString (s : string)
| JArray (items : list jsval)
| JObject (properties : list (string * jsval)).

Fixpoint lookup_property (k : string) (ps : list (string * jsval))
  : option jsval :=
  match ps with
  | [] => None
  | (k', v) :: ps' => if String.eqb k' k then Some v else lookup_property k ps'
  end.

(** [v.k] for a key that is no built-in property: [None] is [undefined];
    reading a property of [null] throws. *)
Definition get (v : jsval) (k : string) : Promise (option jsval) :=
  match v with
  | JNull =>
      Rejected (TypeError ("Cannot read properties of null (reading '" +:+ k +:+ "')"))
  | JObject ps => Resolved (lookup_property k ps)
  | _ => Resolved None
  end.

(** Truthiness of [v], with [None] for [undefined]. *)
Definition is_truthy (v : option jsval) : bool :=
  match v with
  | None | Some JNull => false
  | Some (JBool b) => b
  | Some (JNumber z) => negb (z =? 0)
  | Some (JString s) => negb (String.eqb s "")
  | Some (JArray _) | Some (JObject _) => true
  end.

(** [String(v)], as [new Error(v)] computes its message. *)
Fixpoint ToString (v : jsval) : string :=
  match v with
  | JNull => "null"
  | JBool true => "true"
  | JBool false => "false"
  | JNumber z => Number_toString z
  | JString s => s
  | JArray items =>
      String.concat ","
        (map (fun x => match x with JNull => "" | _ => ToString x end) items)
  | JObject _ => "[object Object]"
  end.

(** [a || b]. *)
Definition or_else (a b : option jsval) : option jsval :=
  if is_truthy a then a else b.

(** [new Error(v)]: the message is [String(v)], and empty when [v] is
    [undefined]. *)
Definition new_Error (v : option jsval) : exn :=
  Error (from_option ToString "" v).

End JSON.
Export JSON.

Module apiService.

(** [RequestInit]: the options of a request; an absent member is [None]. *)
Record RequestInit := {
  init_method : option string;
  init_headers : option (list (string * string));
  init_body : option string
}.

Definition noOptions : RequestInit :=
  {| init_method := None; init_headers := None; init_body := None |}.

(** [{ ...a, ...b }]: the members of [b] win. *)
Definition spread (a b : RequestInit) : RequestInit :=
  {| init_method := from_option Some (init_method a) (init_method b);
     init_headers := from_option Some (init_headers a) (init_headers b);
     init_body := from_option Some (init_body a) (init_body b) |}.

(** What the code reads of a [Response]: the status and the outcome of
    [response.json()]. *)
Record Response := {
  status : Z;
  json : Promise jsval
}.

(** [response.ok]: the status is in the range 200-299. *)
Definition ok (r : Response) : bool :=
  (200 <=? status r) && (status r <=? 299).

(** The environment's [fetch]. *)
Definition Fetch : Type := string -> RequestInit -> Promise Response.

Section WithFetch.

Variable fetch : Fetch.

(** [JSON.stringify] on the body of a request. *)
Variable JSON_stringify : jsval -> string.

Definition defaultOptions : RequestInit :=
  {| init_method := None;
     init_headers := Some [("Content-Type", "application/json")];
     init_body := None |}.

Definition fetchAPI (url : string) (options : RequestInit) : Promise jsval :=
  response ← fetch url (spread defaultOptions options);
  if negb (ok response) then
    errorData ← json response;
    error ← get errorData "error";
    Rejected (new_Error
      (or_else error
         (Some (JString ("API call failed with status "
                           +:+ Number_toString (status response))))))
  else json response.

Definition signup (username email pass : string) : Promise jsval :=
  fetchAPI "/api/auth/signup"
    {| init_method := Some "POST";
       init_headers := None;
       init_body :=
         Some (JSON_stringify
                 (JObject [("username", JString username);
                           ("email", JString email);
                           ("password", JString pass)])) |}.

Definition getRecommendedNovels : Promise jsval :=
  fetchAPI "/api/novels?category=Recommended" noOptions.

Definition getFantasyNovels : Promise jsval :=
  fetchAPI "/api/novels?category=Fantasy" noOptions.

Definition getNovelById (id : Z) : Promise jsval :=
  fetchAPI ("/api/novels/" +:+ Number_toString id) noOptions.

Definition getEpisodesByNovelId (novelId : Z) : Promise jsval :=
  fetchAPI ("/api/novels/" +:+ Number_toString novelId +:+ "/episodes") noOptions.

(** [e.episode_id === episodeId] for a number [episodeId]. *)
Definition has_episode_id (episodeId : Z) (e : jsval) : Promise bool :=
  id ← get e "episode_id";
  Resolved (match id with
            | Some (JNumber z) => z =? episodeId
            | _ => false
            end).

(** [items.find(p)] with a callback that may throw: [None] is
    [undefined]. *)
Fixpoint find_item (p : jsval -> Promise bool) (items : list jsval)
  : Promise (option jsval) :=
  match items with
  | [] => Resolved None
  | e :: items' =>
      b ← p e;
      if b : bool then Resolved (Some e) else find_item p items'
  end.

(** [eps.find(p)]: only an array has [find]. *)
Definition find (p : jsval -> Promise bool) (eps : jsval)
  : Promise (option jsval) :=
  match eps with
  | JArray items => find_item p items
  | JNull => Rejected (TypeError "Cannot read properties of null (reading 'find')")
  | _ => Rejected (TypeError "eps.find is not a function")
  end.

Definition getEpisode (novelId episodeId : Z) : Promise (option jsval) :=
  eps ← getEpisodesByNovelId novelId;
  find (has_episode_id episodeId) eps.

Definition getReviewsByNovelId (novelId : Z) : Promise jsval :=
  fetchAPI ("/api/novels/" +:+ Number_toString novelId +:+ "/reviews") noOptions.

(** A placeholder in the source: no request is made. *)
Definition getCommentsByEpisodeId (episodeId : Z) : Promise jsval :=
  Resolved (JArray []).

(** [n.author.user_id === writerId]; reading [user_id] of a missing
    [author] throws. *)
Definition is_written_by (writerId : Z) (n : jsval) : Promise bool :=
  author ← get n "author";
  match author with
  | Some a =>
      id ← get a "user_id";
      Resolved (match id with
                | Some (JNumber z) => z =? writerId
                | _ => false
                end)
  | None =>
      Rejected (TypeError "Cannot read properties of undefined (reading 'user_id')")
  end.

(** [items.filter(p)] with a callback that may throw. *)
Fixpoint filter_items (p : jsval -> Promise bool) (items : list jsval)
  : Promise (list jsval) :=
  match items with
  | [] => Resolved []
  | n :: items' =>
      b ← p n;
      rest ← filter_items p items';
      Resolved (if b : bool then n :: rest else rest)
  end.

Definition getWriterNovels (writerId : Z) : Promise jsval :=
  novels ← fetchAPI "/api/novels" noOptions;
  match novels with
  | JArray items => JArray <$> filter_items (is_written_by writerId) items
  | JNull => Rejected (TypeError "Cannot read properties of null (reading 'filter')")
  | _ => Rejected (TypeError "novels.filter is not a function")
  end.

End WithFetch.
End apiService.

(** The deployment the remote layer talks to: the Next.js server with the
    episodes route at [/api/novels/[novelId]/episodes]. *)
Module server.

Import prisma episodesRoute apiService.

Record Backend := {
  reachable : bool;
  db : Database
}.

Section Wire.

(** [Date.prototype.toISOString], applied to an instant. *)
Variable toISOString : Z -> string.

(** [res.json(v)] serialises, [response.json()] parses back. *)
Definition Episode_toJSON (e : Episode) : jsval :=
  JObject [("episode_id", JNumber (episode_id e));
           ("novel_id", JNumber (ep_novel_id e));
           ("title", JString (ep_title e));
           ("content", JString (content e));
           ("is_locked", JBool (is_locked e));
           ("price", JNumber (price e));
           ("release_date", JString (toISOString (release_date e)))].

Definition Body_toJSON (b : Body) : jsval :=
  match b with
  | Episodes episodes => JArray (map Episode_toJSON episodes)
  | ErrorBody error => JObject [("error", JString error)]
  end.

(** The dynamic segment of a path of the form
    [/api/novels/<segment>/episodes]. *)
Definition match_route (url : string) : option string :=
  if startsWith url "/api/novels/" then
    match split "/" (string_drop 12 url) with
    | [segment; "episodes"] =>
        if String.eqb segment "" then None else Some segment
    | _ => None
    end
  else None.

(** [fetch] against the backend: a network failure rejects with the
    browser's [TypeError]; a path with no route gets the framework's 404
    page, which is not JSON. *)
Definition serve (b : Backend) : Fetch := fun url init =>
  if reachable b then
    match match_route url with
    | Some segment =>
        let sent := handler (db b)
                      {| method := default "GET" (init_method init);
                         query_novelId := segment |} in
        Resolved {| status := statusCode sent;
                    json := Resolved (Body_toJSON (body sent)) |}
    | None =>
        Resolved {| status := 404;
                    json := Rejected (SyntaxError "Unexpected token '<'") |}
    end
  else Rejected (TypeError "Failed to fetch").

End Wire.
End server.

(* ===================================================================== *)
(** * [context/AuthContext.tsx]                                           *)
(* ===================================================================== *)

Module AuthContext.

(** The state the provider reads and writes: the [user] cell, the tab's
    [sessionStorage], whether the storage still accepts writes
    ([setItem] throws when the quota is exceeded), and
    [window.location.hash]. *)
Record Session := {
  user : Nullable User;
  sessionStorage : gmap string string;
  storage_accepts_writes : bool;
  location_hash : string
}.

Definition setUser (u : Nullable User) (s : Session) : Session :=
  {| user := u;
     sessionStorage := sessionStorage s;
     storage_accepts_writes := storage_accepts_writes s;
     location_hash := location_hash s |}.

(** [sessionStorage.setItem(k, v)]. *)
Definition setItem (k v : string) (s : Session) : Session * Promise unit :=
  if storage_accepts_writes s then
    ({| user := user s;
        sessionStorage := <[k := v]> (sessionStorage s);
        storage_accepts_writes := true;
        location_hash := location_hash s |}, Resolved ())
  else
    (s, Rejected (Throw "QuotaExceededError" "The quota has been exceeded.")).

(** [sessionStorage.removeItem(k)]. *)
Definition removeItem (k : string) (s : Session) : Session :=
  {| user := user s;
     sessionStorage := delete k (sessionStorage s);
     storage_accepts_writes := storage_accepts_writes s;
     location_hash := location_hash s |}.

Section AuthProvider.

(** [JSON.stringify] on a user, and [JSON.parse] on a stored text
    (which may throw). *)
Variable JSON_stringify : User -> string.
Variable JSON_parse : string -> Promise (Nullable User).

(** The effect run once on mount: restore the identity from the
    session storage.  An exception of [JSON.parse] is not caught here. *)
Definition restore (s : Session) : Session * Promise unit :=
  match sessionStorage s !! "user" with
  | Some loggedInUser =>
      if negb (String.eqb loggedInUser "") then
        match JSON_parse loggedInUser with
        | Resolved u => (setUser u s, Resolved ())
        | Rejected error => (s, Rejected error)
        end
      else (s, Resolved ())
  | None => (s, Resolved ())
  end.

(** The body shared by [login] and [signup]: [call] is the outcome of the
    awaited data-access call. *)
Definition settle (call : Promise (Nullable User)) (s : Session)
  : Session * Promise (Nullable User) :=
  match call with
  | Resolved loggedUser =>
      match loggedUser with
      | Present u =>
          let s1 := setUser loggedUser s in
          match setItem "user" (JSON_stringify u) s1 with
          | (s2, Resolved _) => (s2, Resolved loggedUser)
          | (s2, Rejected error) => (s2, Resolved null)
          end
      | _ => (s, Resolved loggedUser)
      end
  | Rejected error => (s, Resolved null)
  end.

(** [login(email, pass)], given the data-access layer's [login] as it
    answers at the time of the call. *)
Definition login (apiService_login : string -> string -> Promise (Nullable User))
    (email pass : string) (s : Session) : Session * Promise (Nullable User) :=
  settle (apiService_login email pass) s.

(** [signup(username, email, pass)], given the layer's [signup]. *)
Definition signup
    (apiService_signup : string -> string -> string -> Promise (Nullable User))
    (username email pass : string) (s : Session)
  : Session * Promise (Nullable User) :=
  settle (apiService_signup username email pass) s.

Definition logout (s : Session) : Session :=
  let s1 := setUser null s in
  let s2 := removeItem "user" s1 in
  {| user := user s2;
     sessionStorage := sessionStorage s2;
     storage_accepts_writes := storage_accepts_writes s2;
     location_hash := "" |}.

End AuthProvider.
End AuthContext.

(* ===================================================================== *)
(** * [App.tsx]: the router                                               *)
(* ===================================================================== *)

Module App.

(** The element the router returns. *)
Inductive View : Type :=
| LoginPage
| NovelDetailPage (novelId : Z)
| ReadNovelPage (novelId episodeId : Z)
| HomePage
| WriterDashboard
| AdminDashboard
| DeveloperDashboard.

(** The final [switch (user.role)]. *)
Definition landing (r : UserRole) : View :=
  match r with
  | READER => HomePage
  | WRITER => WriterDashboard
  | ADMIN => AdminDashboard
  | DEVELOPER => DeveloperDashboard
  | UnknownRole _ => HomePage
  end.

(** The [#/novel/] block: the view it returns, if it returns. *)
Definition novelRoute (hash : string) : option View :=
  if startsWith hash "#/novel/" then
    let id := parseInt (replace "#/novel/" "" hash) (Some 10) in
    match id with
    | Some n => Some (NovelDetailPage n)
    | None => None
    end
  else None.

(** The [#/read/] block. *)
Definition readRoute (hash : string) : option View :=
  if startsWith hash "#/read/" then
    let ids := split "/" (replace "#/read/" "" hash) in
    let novelId := parseInt_at ids 0 (Some 10) in
    let episodeId := parseInt_at ids 1 (Some 10) in
    match novelId, episodeId with
    | Some n, Some e => Some (ReadNovelPage n e)
    | _, _ => None
    end
  else None.

(** [Router], as a function of the identity [useAuth] gives and of the
    current [hash]. *)
Definition Router (user : Nullable User) (hash : string) : View :=
  match user with
  | Present u =>
      match novelRoute hash with
      | Some v => v
      | None =>
          match readRoute hash with
          | Some v => v
          | None => landing (role u)
          end
      end
  | _ => LoginPage
  end.

End App.

(* ===================================================================== *)
(** * The comment-threading transform                                     *)
(* ===================================================================== *)

Module commentThreading.

(** Modelled from the spec: the transform that threads a flat comment
    list is not among the sources (the fixtures carry their replies
    already nested).  The definitions follow section 4.4 of the
    specification: the comments are split into roots (no
    [parent_comment_id]) and children; every root gets as [replies] the
    children whose [parent_comment_id] is its [comment_id], in their
    original order, and so on recursively for each attached child. *)
Record Comment := {
  comment_id : Z;
  c_episode_id : Z;
  c_user_id : Z;
  c_content : string;
  c_created_at : Z;
  parent_comment_id : option Z
}.

(** Modelled from the spec: a comment with its derived [replies]. *)
Inductive Thread : Type :=
| Node (comment : Comment) (replies : list Thread).

Definition isRoot (c : Comment) : bool :=
  match parent_comment_id c with
  | None => true
  | Some _ => false
  end.

Definition isReplyTo (parent c : Comment) : bool :=
  match parent_comment_id c with
  | Some p => p =? comment_id parent
  | None => false
  end.

(** Modelled from the spec: the recursive attachment, which the sources
    do not have.  [attach depth children c] is [c] with, as [replies],
    the children whose parent is [c], each with its own replies.  The
    recursion is bounded by [depth]; a chain of replies with distinct
    ids is never longer than the number of children. *)
Fixpoint attach (depth : nat) (children : list Comment) (c : Comment)
  : Thread :=
  match depth with
  | O => Node c []
  | S d =>
      Node c (map (attach d children) (List.filter (isReplyTo c) children))
  end.

(** Modelled from the spec: the transform itself, which the sources do
    not have: one thread per root, in the order of the input. *)
Definition buildThreads (comments : list Comment) : list Thread :=
  let roots := List.filter isRoot comments in
  let children := List.filter (fun c => negb (isRoot c)) comments in
  map (attach (List.length children) children) roots.

(** Every comment of a thread, at any depth. *)
Fixpoint comments_of (t : Thread) : list Comment :=
  match t with
  | Node c replies => c :: List.concat (map comments_of replies)
  end.

Definition forest_comments (f : list Thread) : list Comment :=
  List.concat (map comments_of f).

(** A comment is anchored in [comments] when it is a root or its parent
    is one of [comments]; an orphan is a comment that is not anchored. *)
Definition anchored (comments : list Comment) (x : Comment) : Prop :=
  match parent_comment_id x with
  | None => True
  | Some p => exists k, In k comments /\ comment_id k = p
  end.

End commentThreading.

(* ===================================================================== *)
(** * Notions of the specification                                        *)
(* ===================================================================== *)

Module specification.

(** The error kinds into which section 7 of the specification wants
    every failure of the data-access layer normalised. *)
Definition normalized_kind (e : exn) : bool :=
  bool_decide (name e = "NotFoundError" \/ name e = "ConflictError"
               \/ name e = "TransportError").

Definition isDecimalDigit (c : ascii) : bool :=
  let n := nat_of_ascii c in (48 <=? n)%nat && (n <=? 57)%nat.

Fixpoint allDecimalDigits (s : string) : bool :=
  match s with
  | EmptyString => true
  | String c s' => isDecimalDigit c && allDecimalDigits s'
  end.

(** The value of a string of decimal digits. *)
Fixpoint decimalValue (acc : Z) (s : string) : Z :=
  match s with
  | EmptyString => acc
  | String c s' => decimalValue (acc * 10 + (Z.of_nat (nat_of_ascii c) - 48)) s'
  end.

(** A well-formed positive integer: one or more decimal digits and
    nothing else, denoting a number above zero. *)
Definition wellFormedPositiveInteger (s : string) : bool :=
  negb (String.eqb s "") && allDecimalDigits s && (0 <? decimalValue 0 s).

Fixpoint allWhiteSpace (s : string) : bool :=
  match s with
  | EmptyString => true
  | String c s' => isWhiteSpace c && allWhiteSpace s'
  end.

Definition startsWithDigit (s : string) : bool :=
  match s with
  | EmptyString => false
  | String c _ => isDecimalDigit c
  end.

(** [leadingInteger s n]: [s] is optional white space, an optional sign,
    one or more decimal digits and a rest that does not go on with a
    digit; [n] is the signed value of the digits. *)
Definition leadingInteger (s : string) (n : Z) : Prop :=
  exists ws sg ds tl : string,
    s = ws +:+ sg +:+ ds +:+ tl
    /\ allWhiteSpace ws = true
    /\ (sg = "" \/ sg = "+" \/ sg = "-")
    /\ ds <> ""
    /\ allDecimalDigits ds = true
    /\ startsWithDigit tl = false
    /\ n = (if String.eqb sg "-" then -1 else 1) * decimalValue 0 ds.

End specification.

(* ===================================================================== *)
(** * Sample inputs used by the examples                                  *)
(* ===================================================================== *)

Module samples.

(** A clock that stands still while the fixtures are built. *)
Definition frozenClock : nat -> Z := fun _ => 1700000000000.

(** A stand-in for [toISOString] in examples: the instant in decimal. *)
Definition instantText : Z -> string := Number_toString.

Definition chapter (episodeId novelId released : Z) : Episode :=
  {| episode_id := episodeId; ep_novel_id := novelId;
     ep_title := "Chapter"; content := ""; is_locked := false; price := 0;
     release_date := released |}.

(** A database with two novels; the rows are not in release order. *)
Definition library : prisma.Database :=
  {| prisma.connected := true;
     prisma.episode := [chapter 2 7 300; chapter 5 8 100; chapter 1 7 200] |}.

Definition site : server.Backend :=
  {| server.reachable := true; server.db := library |}.

(** A fetch that fails at the network level. *)
Definition offline : apiService.Fetch :=
  fun _ _ => Rejected (TypeError "Failed to fetch").

Definition note (id : Z) (parent : option Z) : commentThreading.Comment :=
  {| commentThreading.comment_id := id;
     commentThreading.c_episode_id := 10101;
     commentThreading.c_user_id := 1;
     commentThreading.c_content := "";
     commentThreading.c_created_at := id;
     commentThreading.parent_comment_id := parent |}.

(** A root, a reply to it, and a reply to a comment that is not there. *)
Definition conversation : list commentThreading.Comment :=
  [note 1 None; note 3 (Some 1); note 4 (Some 99)].

Definition emptySession : AuthContext.Session :=
  {| AuthContext.user := null;
     AuthContext.sessionStorage := ∅;
     AuthContext.storage_accepts_writes := true;
     AuthContext.location_hash := "" |}.

End samples.

(* ===================================================================== *)
(** * [App.tsx]: the page around the router                               *)
(* ===================================================================== *)

Module AppShell.

(** What [AppContent] renders: the [Header], if any, and the view the
    [Router] returns inside [main]. *)
Record Page := {
  header : bool;
  main : App.View
}.

(** [AppContent], as a function of the identity and the hash. *)
Definition AppContent (user : Nullable User) (hash : string) : Page :=
  {| header := truthy user; main := App.Router user hash |}.

(** [AuthProvider] when it mounts: the [user] cell starts as [null]
    ([useState(null)]) over the storage and hash the tab has, then the
    restoring effect runs. *)
Definition AuthProvider_mount (JSON_parse : string -> Promise (Nullable User))
    (tab : AuthContext.Session) : AuthContext.Session * Promise unit :=
  AuthContext.restore JSON_parse (AuthContext.setUser null tab).

End AppShell.

(* ===================================================================== *)
(** * The novels API route                                                *)
(* ===================================================================== *)

Module novelsRoute.

(** A row of [novel] as [findMany] returns it with
    [include: { authors: { select: { user: ... } } }]: the columns and
    the [user] of each author link. *)
Record NovelRow := {
  row_novel_id : Z;
  row_title : string;
  row_description : option string;
  row_cover_image : option string;
  row_tags : list string;
  row_status : string;
  row_last_update : Z;
  row_views : Z;
  row_likes : Z;
  row_rating : Q;
  row_authors : list Author
}.

(** The tables the route reads. *)
Record Store := {
  connected : bool;
  novel : list NovelRow
}.

(** A value of [req.query]: one string, or several when the parameter is
    repeated. *)
Inductive QueryValue : Type :=
| QString (s : string)
| QStrings (l : list string).

(** Truthiness of [req.query.category]. *)
Definition given (category : option QueryValue) : bool :=
  match category with
  | None => false
  | Some (QString s) => negb (String.eqb s "")
  | Some (QStrings _) => true
  end.

Definition views_ge (a b : NovelRow) : Prop := row_views b <= row_views a.

#[export] Instance views_ge_dec a b : Decision (views_ge a b).
Proof. unfold views_ge. apply _. Defined.

(** [prisma.novel.findMany({ where: category ? { tags: { has: category } } : {},
                             include: ..., orderBy: { views: 'desc' }, take: 12 })],
    by the client's documented contract: the first twelve, by descending
    [views], of the rows whose [tags] hold [category]; it throws when the
    database cannot be queried or [has] is given something else than one
    string. *)
Definition novel_findMany (d : Store) (category : option QueryValue)
  : Promise (list NovelRow) :=
  if given category then
    match category with
    | Some (QString c) =>
        if connected d then
          Resolved (take 12 (merge_sort views_ge
                      (List.filter (fun n => bool_decide (c ∈ row_tags n))
                         (novel d))))
        else
          Rejected (Throw "PrismaClientInitializationError" "Can't reach database server")
    | _ =>
        Rejected (Throw "PrismaClientValidationError" "Invalid value for argument has")
    end
  else if connected d then
    Resolved (take 12 (merge_sort views_ge (novel d)))
  else
    Rejected (Throw "PrismaClientInitializationError" "Can't reach database server").

(** [{ ...n, author: n.authors[0]?.user ?? { user_id: 0, username: 'Unknown' } }]. *)
Record FormattedNovel := {
  row : NovelRow;
  author : Author
}.

Definition format (n : NovelRow) : FormattedNovel :=
  {| row := n;
     author := default {| author_user_id := 0; author_username := "Unknown" |}
                 (row_authors n !! 0%nat) |}.

Record NextApiRequest := {
  method : string;
  query_category : option QueryValue
}.

Inductive Body : Type :=
| Novels (novels : list FormattedNovel)
| ErrorBody (error : string).

Record Sent := {
  statusCode : Z;
  body : Body
}.

Definition handler (d : Store) (req : NextApiRequest) : Sent :=
  if negb (String.eqb (method req) "GET") then
    {| statusCode := 405; body := ErrorBody "Method not allowed" |}
  else
    let category := query_category req in
    match novel_findMany d category with
    | Resolved novels =>
        let formattedNovels := map format novels in
        {| statusCode := 200; body := Novels formattedNovels |}
    | Rejected error =>
        {| statusCode := 500; body := ErrorBody "Failed to fetch novels" |}
    end.

End novelsRoute.

(* ===================================================================== *)
(** * [lib/prisma.ts]: the shared client                                  *)
(* ===================================================================== *)

Module libPrisma.

(** The process the module is evaluated in: [globalThis.prisma], the
    number of clients constructed so far (a client is named by its rank
    of construction), and whether [NODE_ENV] is ['production']. *)
Record Process := {
  globalThis_prisma : option nat;
  constructed : nat;
  production : bool
}.

(** One evaluation of the module: the process afterwards and the
    exported [prisma]. *)
Definition evaluate (p : Process) : Process * nat :=
  let '(prisma, n) :=
    match globalThis_prisma p with
    | Some client => (client, constructed p)
    | None => (constructed p, S (constructed p))
    end in
  ({| globalThis_prisma :=
        if negb (production p) then Some prisma else globalThis_prisma p;
      constructed := n;
      production := production p |},
   prisma).

(** [n] evaluations in a row (as on hot reloads): the process afterwards
    and the clients exported, in order. *)
Fixpoint evaluations (n : nat) (p : Process) : Process * list nat :=
  match n with
  | O => (p, [])
  | S n' =>
      let '(p1, client) := evaluate p in
      let '(p2, clients) := evaluations n' p1 in
      (p2, client :: clients)
  end.

End libPrisma.

(* ===================================================================== *)
(** * Further sample inputs                                               *)
(* ===================================================================== *)

Module moreSamples.

(** A stand-in for [JSON.stringify] and [JSON.parse] on the users of the
    fixture: a user is stored by its username. *)
Definition userText (u : User) : string := types.username u.

Definition userOfText (s : string) : Promise (Nullable User) :=
  Resolved (Array_find (fun u => String.eqb (types.username u) s)
              mockData.mockUsers).

Definition book (id views : Z) (tags : list string) (authors : list Author)
  : novelsRoute.NovelRow :=
  {| novelsRoute.row_novel_id := id;
     novelsRoute.row_title := "Book";
     novelsRoute.row_description := None;
     novelsRoute.row_cover_image := None;
     novelsRoute.row_tags := tags;
     novelsRoute.row_status := "Ongoing";
     novelsRoute.row_last_update := 0;
     novelsRoute.row_views := views;
     novelsRoute.row_likes := 0;
     novelsRoute.row_rating := Qmake 0 1;
     novelsRoute.row_authors := authors |}.

Definition jane : Author :=
  {| author_user_id := 2; author_username := "WriterJane" |}.

Definition shelf : novelsRoute.Store :=
  {| novelsRoute.connected := true;
     novelsRoute.novel :=
       [book 1 10 ["Fantasy"] [jane]; book 2 30 ["Sci-Fi"] [];
        book 3 20 ["Fantasy"; "Adventure"] []] |}.

(** A [fetch] that answers every request with [status] and a body that
    parses to [v]. *)
Definition answering (status : Z) (v : jsval) : apiService.Fetch :=
  fun _ _ => Resolved {| apiService.status := status;
                         apiService.json := Resolved v |}.

Definition novelBy (id writer : Z) : jsval :=
  JObject [("novel_id", JNumber id);
           ("author", JObject [("user_id", JNumber writer);
                               ("username", JString "Writer")])].

Definition novelWithoutAuthor (id : Z) : jsval :=
  JObject [("novel_id", JNumber id)].

Definition development : libPrisma.Process :=
  {| libPrisma.globalThis_prisma := None;
     libPrisma.constructed := 0;
     libPrisma.production := false |}.

End moreSamples.

(* ===================================================================== *)
(** * Facts about the string built-ins                                    *)
(* ===================================================================== *)

Section StringFacts.

Lemma append_empty (s : string) : "" +:+ s = s.
Proof. reflexivity. Qed.

Lemma append_String (c : ascii) (s t : string) :
  String c s +:+ t = String c (s +:+ t).
Proof. reflexivity. Qed.

Lemma prefix_append (p r : string) : String.prefix p (p +:+ r) = true.
Proof.
  induction p as [|c p IH]; simpl.
  - destruct r; reflexivity.
  - destruct (ascii_dec c c); [exact IH | congruence].
Qed.

Lemma string_drop_append (p r : string) :
  string_drop (String.length p) (p +:+ r) = r.
Proof. induction p as [|c p IH]; simpl; [reflexivity | exact IH]. Qed.

Lemma prefix_split (p s : string) :
  String.prefix p s = true -> s = p +:+ string_drop (String.length p) s.
Proof.
  revert s; induction p as [|c p IH]; intros s H; simpl.
  - reflexivity.
  - destruct s as [|d s]; simpl in H; [discriminate |].
    destruct (ascii_dec c d) as [->|]; [| discriminate].
    change (String d s = String d (p +:+ string_drop (String.length p) s)).
    f_equal. apply IH, H.
Qed.

Lemma replace_prefix (p s : string) :
  String.prefix p s = true ->
  replace p "" s = string_drop (String.length p) s.
Proof.
  intros H. destruct s as [|c s]; unfold replace; fold replace; rewrite H; reflexivity.
Qed.

Lemma replace_append (p r : string) : replace p "" (p +:+ r) = r.
Proof.
  rewrite replace_prefix by apply prefix_append. apply string_drop_append.
Qed.

Lemma split_at_separator (sep : ascii) (seg t : string) :
  (forall c, In c (list_ascii_of_string seg) -> c <> sep) ->
  split sep (seg +:+ String sep t) = seg :: split sep t.
Proof.
  induction seg as [|c seg IH]; intros H; simpl.
  - rewrite Ascii.eqb_refl. reflexivity.
  - assert (Ascii.eqb c sep = false) as ->.
    { apply Ascii.eqb_neq, H. left. reflexivity. }
    rewrite IH; [reflexivity |].
    intros d Hd. apply H. right. exact Hd.
Qed.

End StringFacts.

Ltac simpl_append := rewrite ?append_String, ?append_empty.

(* ===================================================================== *)
(** * [parseInt] reads back what [String(n)] prints                       *)
(* ===================================================================== *)

Ltac eval_digit :=
  cbn [readDigits];
  match goal with
  | |- context [digitValue ?c] =>
      let v := eval vm_compute in (digitValue c) in
      change (digitValue c) with v
  end;
  cbv iota beta;
  match goal with
  | |- context [?d <? 10] =>
      let b := eval vm_compute in (d <? 10) in
      change (d <? 10) with b
  end;
  cbv iota; cbn [default from_option id].

Section DecimalRoundTrip.

Import Decimal.

Lemma readDigits_uint_acc (u : uint) (a : positive) :
  readDigits 10 (NilEmpty.string_of_uint u) (Some (Z.pos a))
  = Some (Z.pos (Pos.of_uint_acc u a)).
Proof.
  revert a; induction u; intros a; cbn [NilEmpty.string_of_uint Pos.of_uint_acc];
    [reflexivity | ..];
    (eval_digit; rewrite <- IHu; do 2 f_equal; lia).
Qed.

Lemma readDigits_uint_zero (u : uint) :
  readDigits 10 (NilEmpty.string_of_uint u) (Some 0)
  = Some (Z.of_N (Pos.of_uint u)).
Proof.
  induction u; cbn [NilEmpty.string_of_uint Pos.of_uint];
    [reflexivity | exact IHu | ..];
    (eval_digit; apply readDigits_uint_acc).
Qed.

Lemma readDigits_uint (u : uint) :
  u <> Nil ->
  readDigits 10 (NilEmpty.string_of_uint u) None
  = Some (Z.of_N (Pos.of_uint u)).
Proof.
  destruct u; intros Hu; [congruence | ..];
    cbn [NilEmpty.string_of_uint Pos.of_uint];
    eval_digit;
    first [apply readDigits_uint_zero | apply readDigits_uint_acc].
Qed.

Lemma to_uint_not_Nil (p : positive) : Pos.to_uint p <> Nil.
Proof.
  intros H. pose proof (DecimalPos.Unsigned.of_to p) as E.
  rewrite H in E. discriminate.
Qed.

Lemma uint_no_hex_prefix (u : uint) :
  hasHexPrefix (NilEmpty.string_of_uint u) = false.
Proof. destruct u as [|u|u|u|u|u|u|u|u|u|u]; try reflexivity; destruct u; reflexivity. Qed.

Lemma parseInt_uint (u : uint) :
  u <> Nil ->
  parseInt (NilEmpty.string_of_uint u) None = Some (Z.of_N (Pos.of_uint u)).
Proof.
  intros Hu. unfold parseInt.
  assert (skipWhiteSpace (NilEmpty.string_of_uint u) = NilEmpty.string_of_uint u) as ->.
  { destruct u; reflexivity. }
  assert ((match NilEmpty.string_of_uint u with
           | String "-" r => (-1, r)
           | String "+" r => (1, r)
           | _ => (1, NilEmpty.string_of_uint u)
           end) = (1, NilEmpty.string_of_uint u)) as ->.
  { destruct u; reflexivity. }
  cbn [default from_option id]. change (negb (0 =? 0) && ((0 <? 2) || (36 <? 0))) with false.
  cbv iota. change ((0 =? 0) || (0 =? 16)) with true.
  rewrite uint_no_hex_prefix. cbn [andb]. cbv iota.
  change (if 0 =? 0 then 10 else 0) with 10.
  rewrite readDigits_uint by exact Hu. f_equal; lia.
Qed.

Lemma parseInt_neg_uint (u : uint) :
  u <> Nil ->
  parseInt (String "-" (NilEmpty.string_of_uint u)) None
  = Some (- Z.of_N (Pos.of_uint u)).
Proof.
  intros Hu. unfold parseInt.
  change (skipWhiteSpace (String "-" ?s)) with (String "-" s).
  cbv iota. cbn [default from_option id]. change (negb (0 =? 0) && ((0 <? 2) || (36 <? 0))) with false.
  cbv iota. change ((0 =? 0) || (0 =? 16)) with true.
  rewrite uint_no_hex_prefix. cbn [andb]. cbv iota.
  change (if 0 =? 0 then 10 else 0) with 10.
  rewrite readDigits_uint by exact Hu. f_equal; lia.
Qed.

(** [parseInt] reads back what [String] printed. *)
Lemma parseInt_Number_toString (n : Z) :
  parseInt (Number_toString n) None = Some n.
Proof.
  unfold Number_toString. destruct n as [|p|p]; cbn [Z.to_int NilEmpty.string_of_int].
  - reflexivity.
  - rewrite parseInt_uint by apply to_uint_not_Nil.
    rewrite DecimalPos.Unsigned.of_to. reflexivity.
  - rewrite parseInt_neg_uint by apply to_uint_not_Nil.
    rewrite DecimalPos.Unsigned.of_to. reflexivity.
Qed.

Lemma uint_no_slash (u : uint) (c : ascii) :
  In c (list_ascii_of_string (NilEmpty.string_of_uint u)) -> c <> "/"%char.
Proof.
  induction u; cbn [NilEmpty.string_of_uint list_ascii_of_string In];
    intros H; [tauto | ..]; (destruct H as [<- | H]; [discriminate | tauto]).
Qed.

Lemma Number_toString_no_slash (n : Z) (c : ascii) :
  In c (list_ascii_of_string (Number_toString n)) -> c <> "/"%char.
Proof.
  unfold Number_toString.
  destruct n; cbn [Z.to_int NilEmpty.string_of_int list_ascii_of_string In].
  - intros [<- | []]. discriminate.
  - apply uint_no_slash.
  - intros [<- | H]; [discriminate | revert H; apply uint_no_slash].
Qed.

Lemma Number_toString_nonempty (n : Z) : String.eqb (Number_toString n) "" = false.
Proof.
  unfold Number_toString. destruct n as [|p|p]; cbn [Z.to_int NilEmpty.string_of_int];
    try reflexivity.
  pose proof (to_uint_not_Nil p). destruct (Pos.to_uint p); [congruence | reflexivity..].
Qed.

End DecimalRoundTrip.

(* ===================================================================== *)
(** * [parseInt] with radix 10 reads a leading integer                    *)
(* ===================================================================== *)

Section ParseIntFacts.

Import specification.

Lemma digitValue_decimal (c : ascii) :
  isDecimalDigit c = true ->
  digitValue c = Some (Z.of_nat (nat_of_ascii c) - 48)
  /\ (Z.of_nat (nat_of_ascii c) - 48 <? 10) = true.
Proof.
  destruct c as [[] [] [] [] [] [] [] []]; vm_compute; first [discriminate | split; reflexivity].
Qed.

Lemma digitValue_other (c : ascii) :
  isDecimalDigit c = false ->
  match digitValue c with Some d => d <? 10 | None => false end = false.
Proof.
  destruct c as [[] [] [] [] [] [] [] []]; vm_compute; first [discriminate | reflexivity].
Qed.

Lemma decimal_not_white (c : ascii) :
  isDecimalDigit c = true ->
  isWhiteSpace c = false /\ c <> "-"%char /\ c <> "+"%char.
Proof.
  destruct c as [[] [] [] [] [] [] [] []]; vm_compute; first [discriminate | split; [reflexivity | split; discriminate]].
Qed.

(** What [readDigits] returns on digits followed by a rest that does not
    start with a digit. *)
Lemma readDigits_append (ds tl : string) (acc : option Z) :
  allDecimalDigits ds = true -> startsWithDigit tl = false ->
  readDigits 10 (ds +:+ tl) acc
  = match ds with
    | EmptyString => acc
    | _ => Some (decimalValue (default 0 acc) ds)
    end.
Proof.
  revert acc; induction ds as [|c ds IH]; intros acc Hds Htl.
  - simpl_append. destruct tl as [|c tl]; [reflexivity |].
    cbn [readDigits]. cbn [startsWithDigit] in Htl.
    pose proof (digitValue_other c Htl) as H.
    destruct (digitValue c) as [d|]; [rewrite H |]; reflexivity.
  - cbn [allDecimalDigits] in Hds. apply andb_prop in Hds as [Hc Hds].
    destruct (digitValue_decimal c Hc) as [Hv Hlt].
    simpl_append. cbn [readDigits]. rewrite Hv, Hlt.
    rewrite (IH _ Hds Htl). cbn [decimalValue default from_option id].
    destruct ds; reflexivity.
Qed.

(** Every string splits into its longest prefix of digits and a rest. *)
Lemma digits_split (s : string) :
  exists ds tl, s = ds +:+ tl /\ allDecimalDigits ds = true
                /\ startsWithDigit tl = false.
Proof.
  induction s as [|c s (ds & tl & -> & Hds & Htl)].
  - exists "", "". repeat split.
  - destruct (isDecimalDigit c) eqn:Hc.
    + exists (String c ds), tl. cbn [allDecimalDigits]. rewrite Hc, Hds. repeat split. exact Htl.
    + exists "", (String c (ds +:+ tl)). repeat split. exact Hc.
Qed.

Lemma white_split (s : string) :
  exists ws, s = ws +:+ skipWhiteSpace s /\ allWhiteSpace ws = true.
Proof.
  induction s as [|c s (ws & E & Hws)].
  - exists "". split; reflexivity.
  - cbn [skipWhiteSpace]. destruct (isWhiteSpace c) eqn:Hc.
    + exists (String c ws). simpl_append. cbn [allWhiteSpace]. rewrite Hc, Hws, <- E.
      split; reflexivity.
    + exists "". split; reflexivity.
Qed.

Lemma skipWhiteSpace_append (ws r : string) :
  allWhiteSpace ws = true -> skipWhiteSpace (ws +:+ r) = skipWhiteSpace r.
Proof.
  induction ws as [|c ws IH]; [reflexivity |].
  simpl_append. cbn [allWhiteSpace skipWhiteSpace].
  intros [-> H]%andb_prop. apply IH, H.
Qed.

(** [parseInt] with radix 10, after the white space and the sign. *)
Lemma parseInt_10_unfold (s : string) :
  parseInt s (Some 10)
  = let S0 := skipWhiteSpace s in
    let '(sign, S1) :=
      match S0 with
      | String "-" r => (-1, r)
      | String "+" r => (1, r)
      | _ => (1, S0)
      end in
    match readDigits 10 S1 None with
    | Some m => Some (sign * m)
    | None => None
    end.
Proof.
  unfold parseInt. cbv zeta. destruct (match skipWhiteSpace s with
                                      | String "-" r => (-1, r)
                                      | String "+" r => (1, r)
                                      | _ => (1, skipWhiteSpace s)
                                      end) as [sign S1]. reflexivity.
Qed.

Lemma digits_lead (ds tl : string) :
  ds <> "" -> allDecimalDigits ds = true ->
  exists c r, ds +:+ tl = String c r /\ isDecimalDigit c = true.
Proof.
  destruct ds as [|c ds]; [congruence |]. intros _ [Hc _]%andb_prop.
  exists c, (ds +:+ tl). split; [reflexivity | exact Hc].
Qed.

Theorem parseInt_decimal (s : string) (n : Z) :
  parseInt s (Some 10) = Some n <-> leadingInteger s n.
Proof.
  rewrite parseInt_10_unfold. cbv zeta. split.
  - destruct (white_split s) as (ws & Es & Hws).
    set (S0 := skipWhiteSpace s) in *.
    assert (exists sg S1 sign,
               S0 = sg +:+ S1
               /\ (sg = "" \/ sg = "+" \/ sg = "-")
               /\ sign = (if String.eqb sg "-" then -1 else 1)
               /\ match S0 with
                  | String "-" r => (-1, r)
                  | String "+" r => (1, r)
                  | _ => (1, S0)
                  end = (sign, S1)) as (sg & S1 & sign & E0 & Hsg & Hsign & ->).
    { destruct S0 as [|c r].
      - exists "", "", 1. repeat split. left. reflexivity.
      - destruct (ascii_dec c "-") as [-> | Hm].
        + exists "-", r, (-1). repeat split. right. right. reflexivity.
        + destruct (ascii_dec c "+") as [-> | Hp].
          * exists "+", r, 1. repeat split. right. left. reflexivity.
          * exists "", (String c r), 1. repeat split; [left; reflexivity |].
            destruct c as [[] [] [] [] [] [] [] []]; first [reflexivity | congruence]. }
    destruct (digits_split S1) as (ds & tl & -> & Hds & Htl).
    rewrite (readDigits_append ds tl None Hds Htl).
    destruct ds as [|c ds]; [discriminate |].
    intros [= <-]. exists ws, sg, (String c ds), tl.
    rewrite Es, E0. repeat split; try assumption; try discriminate.
    rewrite Hsign. reflexivity.
  - intros (ws & sg & ds & tl & -> & Hws & Hsg & Hne & Hds & Htl & ->).
    rewrite (skipWhiteSpace_append _ _ Hws).
    destruct (digits_lead ds tl Hne Hds) as (c & r & E & Hc).
    destruct (decimal_not_white c Hc) as (Hw & Hm & Hp).
    assert (readDigits 10 (ds +:+ tl) None = Some (decimalValue 0 ds)) as Hread.
    { rewrite (readDigits_append ds tl None Hds Htl). destruct ds; [congruence | reflexivity]. }
    destruct Hsg as [-> | [-> | ->]].
    + simpl_append. rewrite E.
      cbn [skipWhiteSpace]. rewrite Hw.
      assert ((let '(sign, S1) :=
                 match String c r with
                 | String "-" r0 => (-1, r0)
                 | String "+" r0 => (1, r0)
                 | _ => (1, String c r)
                 end in
               match readDigits 10 S1 None with
               | Some m => Some (sign * m)
               | None => None
               end) = match readDigits 10 (String c r) None with
                      | Some m => Some (1 * m)
                      | None => None
                      end) as ->.
      { destruct c as [[] [] [] [] [] [] [] []]; first [reflexivity | congruence]. }
      rewrite <- E, Hread. reflexivity.
    + simpl_append. cbn [skipWhiteSpace]. change (isWhiteSpace "+") with false.
      cbv iota. rewrite Hread. reflexivity.
    + simpl_append. cbn [skipWhiteSpace]. change (isWhiteSpace "-") with false.
      cbv iota. rewrite Hread. reflexivity.
Qed.

End ParseIntFacts.

(* ===================================================================== *)
(** * Facts about the router                                              *)
(* ===================================================================== *)

Section RouterFacts.

Import App.

Lemma landing_not_detail r n : landing r <> NovelDetailPage n.
Proof. destruct r; discriminate. Qed.

Lemma readRoute_not_detail hash v n :
  readRoute hash = Some v -> v <> NovelDetailPage n.
Proof.
  unfold readRoute. destruct (startsWith hash "#/read/"); [| discriminate].
  intros H; repeat case_match; simplify_eq; discriminate.
Qed.

Lemma novelRoute_spec hash v :
  novelRoute hash = Some v <->
  exists rest n, hash = "#/novel/" +:+ rest /\ parseInt rest (Some 10) = Some n
                 /\ v = NovelDetailPage n.
Proof.
  unfold novelRoute, startsWith. split.
  - destruct (String.prefix "#/novel/" hash) eqn:Hp; [| discriminate].
    rewrite (replace_prefix _ _ Hp).
    destruct (parseInt _ _) as [n|] eqn:Hn; intros [= <-].
    exists (string_drop (String.length "#/novel/") hash), n.
    split; [apply prefix_split, Hp | split; [exact Hn | reflexivity]].
  - intros (rest & n & -> & Hn & ->).
    rewrite prefix_append, replace_append, Hn. reflexivity.
Qed.

Lemma readRoute_novel_prefix rest : readRoute ("#/novel/" +:+ rest) = None.
Proof. reflexivity. Qed.

End RouterFacts.

(* ===================================================================== *)
(** * Facts about the fixtures                                            *)
(* ===================================================================== *)

Section InitFacts.

Import mockData.

Context {A B : Type}.

Lemma init_map_Forall (P : B -> Prop) (f : A -> Init B) (l : list A) (k : nat) :
  (forall a k', P (fst (f a k'))) -> Forall P (fst (init_map f l k)).
Proof.
  intros Hf. revert k; induction l as [|a l IH]; intros k; cbn [init_map].
  - constructor.
  - unfold init_bind, init_ret.
    specialize (Hf a k). destruct (f a k) as [b k1]. specialize (IH k1).
    destruct (init_map f l k1) as [bs k2]. constructor; assumption.
Qed.

Lemma init_map_Forall2 (P : A -> B -> Prop) (f : A -> Init B) (l : list A) (k : nat) :
  (forall a k', P a (fst (f a k'))) -> Forall2 P l (fst (init_map f l k)).
Proof.
  intros Hf. revert k; induction l as [|a l IH]; intros k; cbn [init_map].
  - constructor.
  - unfold init_bind, init_ret.
    specialize (Hf a k). destruct (f a k) as [b k1]. specialize (IH k1).
    destruct (init_map f l k1) as [bs k2]. constructor; assumption.
Qed.

End InitFacts.

Section FixtureFacts.

Import mockData.

Variable now : nat -> Z.

Lemma mockNovels_eq : mockNovels now = fst (init_mockNovels now 0%nat).
Proof.
  unfold mockNovels, init_module, init_bind, init_ret.
  destruct (init_mockNovels now 0%nat) as [novels k].
  destruct (init_mockEpisodes now novels k). reflexivity.
Qed.

Lemma mockEpisodes_eq :
  exists (blocks : list (list Episode)) (k : nat),
    mockEpisodes now = List.concat blocks /\
    blocks = fst (init_map
      (fun novel => Array_from 5 (fun i =>
         init_bind (Date_now now) (fun t => init_ret
           {| episode_id := novel_id novel * 100 + Z.of_nat i + 1;
              ep_novel_id := novel_id novel;
              ep_title := "Chapter " +:+ Number_toString (Z.of_nat i + 1)
                            +:+ ": The Discovery";
              content := episode_content;
              is_locked := bool_decide (Z.of_nat i > 2);
              price := 10;
              release_date := t - (5 - Z.of_nat i) * 1000 * 3600 * 24 * 7 |})))
      (mockNovels now) k).
Proof.
  rewrite mockNovels_eq.
  unfold mockEpisodes, init_module, init_bind, init_ret.
  destruct (init_mockNovels now 0%nat) as [novels k]. cbn [fst].
  unfold init_mockEpisodes, flatMap, init_bind, init_ret.
  eexists _, k. split; [| reflexivity].
  destruct (init_map _ novels k). reflexivity.
Qed.

Lemma mockNovels_tags :
  Forall (fun n => tags n = ["Fantasy"; "Adventure"; "Sci-Fi"]) (mockNovels now).
Proof.
  rewrite mockNovels_eq. apply init_map_Forall. intros i k. reflexivity.
Qed.

Lemma mockNovels_ids : map novel_id (mockNovels now) = map (fun i => 101 + Z.of_nat i) (seq 0 12).
Proof. reflexivity. Qed.

Lemma mockNovels_ids_NoDup : NoDup (map novel_id (mockNovels now)).
Proof. rewrite mockNovels_ids. apply (bool_decide_unpack _). vm_compute. exact I. Qed.

End FixtureFacts.

Section EpisodeOrder.

Import mockData prisma.

Lemma filter_all {A} (p : A -> bool) (l : list A) :
  Forall (fun x => p x = true) l -> List.filter p l = l.
Proof.
  induction 1 as [|x l Hx _ IH]; cbn [List.filter]; [reflexivity |].
  rewrite Hx, IH. reflexivity.
Qed.

Lemma filter_none {A} (p : A -> bool) (l : list A) :
  Forall (fun x => p x = false) l -> List.filter p l = [].
Proof.
  induction 1 as [|x l Hx _ IH]; cbn [List.filter]; [reflexivity |].
  rewrite Hx, IH. reflexivity.
Qed.

(** [blocks_of ids blocks]: one block of episodes per novel id, each
    block in release order. *)
Abbreviation blocks_of ids blocks :=
  (Forall2 (fun id blk => Forall (fun e => ep_novel_id e = id) blk
                          /\ StronglySorted release_le blk) ids blocks).

Lemma blocks_of_ids ids blocks :
  blocks_of ids blocks ->
  Forall (fun e => In (ep_novel_id e) ids) (List.concat blocks).
Proof.
  induction 1 as [|id blk ids blocks [Hid _] _ IH]; cbn [List.concat].
  - constructor.
  - apply Forall_app. split.
    + eapply Forall_impl; [exact Hid |]. intros e ->. left. reflexivity.
    + eapply Forall_impl; [exact IH |]. intros e He. right. exact He.
Qed.

Lemma filter_blocks_sorted (n : Z) ids blocks :
  blocks_of ids blocks -> NoDup ids ->
  StronglySorted release_le
    (List.filter (fun e => ep_novel_id e =? n) (List.concat blocks)).
Proof.
  induction 1 as [|id blk ids blocks [Hid Hs] HF IH]; intros ND; cbn [List.concat].
  - constructor.
  - apply NoDup_cons in ND as [Hnotin ND]. rewrite List.filter_app.
    destruct (decide (id = n)) as [-> | Hne].
    + rewrite filter_all, filter_none, app_nil_r; [exact Hs | |].
      * eapply Forall_impl; [exact (blocks_of_ids _ _ HF) |].
        intros e He. apply Z.eqb_neq. intros E. apply Hnotin.
        apply list_elem_of_In. rewrite <- E. exact He.
      * eapply Forall_impl; [exact Hid |]. intros e ->. apply Z.eqb_refl.
    + rewrite filter_none; [exact (IH ND) |].
      eapply Forall_impl; [exact Hid |]. intros e ->. apply Z.eqb_neq, Hne.
Qed.

Variable now : nat -> Z.

(** The clock does not step back by a week or more between two
    consecutive readings. *)
Hypothesis clock_steady : forall k : nat, now k - 1000 * 3600 * 24 * 7 <= now (S k).

Lemma mockEpisodes_blocks :
  exists blocks, mockEpisodes now = List.concat blocks
                 /\ blocks_of (map novel_id (mockNovels now)) blocks.
Proof.
  destruct (mockEpisodes_eq now) as (blocks & k & E & ->).
  eexists; split; [exact E |].
  apply Forall2_fmap_l.
  apply init_map_Forall2. intros novel k'. split.
  - repeat constructor.
  - pose proof (clock_steady k'). pose proof (clock_steady (S k')).
    pose proof (clock_steady (S (S k'))). pose proof (clock_steady (S (S (S k')))).
    cbv [Array_from init_map seq init_bind init_ret Date_now fst].
    repeat constructor; unfold release_le; cbn [release_date]; lia.
Qed.

Lemma mock_episodes_of_novel_sorted (novelId : Z) :
  StronglySorted release_le
    (List.filter (fun e => ep_novel_id e =? novelId) (mockEpisodes now)).
Proof.
  destruct mockEpisodes_blocks as (blocks & -> & Hb).
  apply (filter_blocks_sorted novelId _ _ Hb), mockNovels_ids_NoDup.
Qed.

End EpisodeOrder.

(* ===================================================================== *)
(** * Facts about the route and the remote layer                          *)
(* ===================================================================== *)

Section RouteFacts.

Import prisma episodesRoute server.

#[local] Instance release_le_total : Total release_le.
Proof. intros a b. unfold release_le. lia. Qed.

#[local] Instance release_le_trans : Transitive release_le.
Proof. intros a b c. unfold release_le. lia. Qed.

Lemma findMany_spec (d : Database) (id : Z) (l : list Episode) :
  episode_findMany d (Some id) = Resolved l ->
  StronglySorted release_le l
  /\ (forall e, In e l <-> In e (episode d) /\ ep_novel_id e = id).
Proof.
  unfold episode_findMany.
  destruct (isInt id); cbn [negb]; [| discriminate].
  destruct (connected d); [| discriminate].
  intros [= <-]. split.
  - apply StronglySorted_merge_sort; apply _.
  - intros e. rewrite <- !list_elem_of_In, merge_sort_Permutation.
    rewrite !list_elem_of_In, filter_In, Z.eqb_eq. reflexivity.
Qed.

(** [findMany] answers exactly when the id fits the column and the
    database can be queried. *)
Lemma findMany_resolves (d : Database) (id : Z) :
  (exists l, episode_findMany d (Some id) = Resolved l)
  <-> isInt id = true /\ connected d = true.
Proof.
  unfold episode_findMany.
  destruct (isInt id), (connected d); cbn [negb]; split;
    solve [ intros [l [=]] | intros [[=] [=]] | intros _; eauto ].
Qed.

Lemma match_route_episodes (n : Z) :
  match_route ("/api/novels/" +:+ Number_toString n +:+ "/episodes")
  = Some (Number_toString n).
Proof.
  unfold match_route, startsWith. rewrite prefix_append.
  change 12%nat with (String.length "/api/novels/").
  rewrite string_drop_append.
  change "/episodes" with (String "/" "episodes").
  rewrite split_at_separator by apply Number_toString_no_slash.
  change (split "/" "episodes") with ["episodes"].
  rewrite Number_toString_nonempty. reflexivity.
Qed.

End RouteFacts.

Section RemoteFacts.

Import prisma episodesRoute apiService server.

Variable toISOString : Z -> string.

Lemma remote_getEpisodesByNovelId (b : Backend) (novelId : Z) :
  reachable b = true ->
  getEpisodesByNovelId (serve toISOString b) novelId
  = match episode_findMany (db b) (Some novelId) with
    | Resolved episodes => Resolved (JArray (map (Episode_toJSON toISOString) episodes))
    | Rejected _ => Rejected (Error "Failed to fetch episodes")
    end.
Proof.
  intros Hr. unfold getEpisodesByNovelId, fetchAPI, serve.
  rewrite Hr, match_route_episodes. unfold handler.
  cbn [mbind Promise_bind method query_novelId spread defaultOptions noOptions
       init_method from_option default id String.eqb negb].
  rewrite parseInt_Number_toString.
  change (negb ("GET" =? "GET")%string) with false. cbv iota.
  destruct (episode_findMany (db b) (Some novelId)); reflexivity.
Qed.

Lemma remote_getEpisodesByNovelId_unreachable (b : Backend) (novelId : Z) :
  reachable b = false ->
  getEpisodesByNovelId (serve toISOString b) novelId
  = Rejected (TypeError "Failed to fetch").
Proof.
  intros Hr. unfold getEpisodesByNovelId, fetchAPI, serve. rewrite Hr. reflexivity.
Qed.


End RemoteFacts.

(* ===================================================================== *)
(** * Facts about the comment-threading transform                         *)
(* ===================================================================== *)

Section ThreadingFacts.

Import commentThreading.

Variable comments : list Comment.

Lemma reply_anchored (c r : Comment) :
  In c comments -> isReplyTo c r = true -> anchored comments r.
Proof.
  unfold isReplyTo, anchored. intros Hc.
  destruct (parent_comment_id r) as [p|]; [| discriminate].
  intros E%Z.eqb_eq. exists c. split; [exact Hc | symmetry; exact E].
Qed.

Lemma attach_anchored (children : list Comment) (depth : nat) :
  (forall x, In x children -> In x comments) ->
  forall c x, In c comments -> anchored comments c ->
              In x (comments_of (attach depth children c)) -> anchored comments x.
Proof.
  intros Hsub. induction depth as [|d IH]; intros c x Hc Ha; cbn [attach comments_of].
  - intros [<- | []]. exact Ha.
  - intros [<- | Hx]; [exact Ha |].
    apply in_concat in Hx as (l & Hl & Hx).
    apply in_map_iff in Hl as (t & <- & Ht).
    apply in_map_iff in Ht as (r & <- & Hr).
    apply filter_In in Hr as [Hr Hrep].
    apply (IH r x); [apply Hsub, Hr | exact (reply_anchored c r Hc Hrep) | exact Hx].
Qed.

Lemma buildThreads_anchored (x : Comment) :
  In x (forest_comments (buildThreads comments)) -> anchored comments x.
Proof.
  unfold forest_comments, buildThreads. intros Hx.
  apply in_concat in Hx as (l & Hl & Hx).
  apply in_map_iff in Hl as (t & <- & Ht).
  apply in_map_iff in Ht as (c & <- & Hc).
  apply filter_In in Hc as [Hc Hroot].
  eapply attach_anchored; [| exact Hc | | exact Hx].
  - intros y Hy. apply filter_In in Hy as [Hy _]. exact Hy.
  - unfold anchored. unfold isRoot in Hroot.
    destruct (parent_comment_id c); [discriminate | exact I].
Qed.

(** Nothing else is lost at the top: every root of the input, and every
    direct reply to a root, occurs in the forest. *)
Lemma attach_head (children : list Comment) (depth : nat) (c : Comment) :
  In c (comments_of (attach depth children c)).
Proof. destruct depth; left; reflexivity. Qed.

Lemma root_kept (c : Comment) :
  In c comments -> isRoot c = true ->
  In c (forest_comments (buildThreads comments)).
Proof.
  intros Hc Hroot. unfold forest_comments, buildThreads.
  apply in_concat. eexists. split; [| apply attach_head].
  apply in_map, in_map, filter_In. split; assumption.
Qed.

Lemma reply_to_root_kept (c r : Comment) :
  In c comments -> isRoot c = true ->
  In r comments -> isReplyTo c r = true ->
  In r (forest_comments (buildThreads comments)).
Proof.
  intros Hc Hroot Hr Hrep. unfold forest_comments, buildThreads.
  remember (List.filter (fun x => negb (isRoot x)) comments) as children eqn:E.
  assert (In r children) as Hchild.
  { rewrite E. apply filter_In. split; [exact Hr |].
    unfold isReplyTo in Hrep. unfold isRoot.
    destruct (parent_comment_id r); [reflexivity | discriminate]. }
  apply in_concat. exists (comments_of (attach (List.length children) children c)).
  split.
  - apply in_map, in_map, filter_In. split; assumption.
  - assert (exists d, List.length children = S d) as [d ->].
    { destruct children; [destruct Hchild | eexists; reflexivity]. }
    cbn [attach comments_of]. right.
    apply in_concat. eexists. split; [| apply attach_head].
    apply in_map, in_map, filter_In. split; assumption.
Qed.

End ThreadingFacts.

(* ===================================================================== *)
(** * Facts about the mock data-access layer                              *)
(* ===================================================================== *)

Section MockFacts.

Lemma find_none_iff {A} (p : A -> bool) (l : list A) :
  List.find p l = None <-> forall x, In x l -> p x = false.
Proof.
  split; [apply find_none |].
  induction l as [|a l IH]; intros H; cbn [List.find]; [reflexivity |].
  rewrite (H a (or_introl eq_refl)). apply IH. intros x Hx. apply H. right. exact Hx.
Qed.

Lemma find_app_new {A} (p : A -> bool) (l : list A) (a : A) :
  (forall x, In x l -> p x = false) -> p a = true ->
  List.find p (l ++ [a]) = Some a.
Proof.
  intros Hl Ha. induction l as [|b l IH]; cbn [app List.find].
  - rewrite Ha. reflexivity.
  - rewrite (Hl b (or_introl eq_refl)). apply IH. intros x Hx. apply Hl. right. exact Hx.
Qed.

Lemma Math_max_upper (l : list number) (z : Z) :
  In (Num z) l -> exists m, Math_max l = Num m /\ z <= m.
Proof.
  induction l as [|a l IH]; intros H; [destruct H |].
  cbn [Math_max foldr]. fold (Math_max l).
  destruct H as [-> | H].
  - destruct (Math_max l) as [|m]; cbn [number_max].
    + exists z. split; [reflexivity | lia].
    + exists (Z.max z m). split; [reflexivity | lia].
  - destruct (IH H) as (m & -> & Hm). destruct a as [|x]; cbn [number_max].
    + exists m. split; [reflexivity | exact Hm].
    + exists (Z.max x m). split; [reflexivity | lia].
Qed.

Lemma mock_login_rejection (mockUsers : list User) (email pass : string) (e : exn) :
  mockApiService.login mockUsers email pass = Rejected e ->
  e = Error "User not found".
Proof.
  unfold mockApiService.login, mockApiService.delay.
  repeat case_match; intros [= <-]; reflexivity.
Qed.

End MockFacts.

(* ===================================================================== *)
(** * The claims of the specification                                     *)
(* ===================================================================== *)

Import App.

(** Settles [forall x, In x l -> P x] for a concrete list and a
    decidable [P] by evaluation. *)
Ltac decide_all :=
  match goal with
  | |- forall x, In x ?l -> @?P x =>
      apply (proj1 (List.Forall_forall P l));
      apply (bool_decide_unpack _); vm_compute; exact I
  end.

(** Claim C1.  When no identity is present (the [user] the session
    manager exposes is [null] or [undefined]) the router returns the
    login view, whatever the hash is: the hash is not looked at. *)
Theorem Router_login_without_identity (user : Nullable User) (hash : string) :
  truthy user = false -> Router user hash = LoginPage.
Proof. destruct user; cbn [truthy Router]; [reflexivity | reflexivity | discriminate]. Qed.

Lemma Router_login_without_identity_witness :
  truthy (@null User) = false /\ Router null "#/novel/101" = LoginPage.
Proof.
  split; [reflexivity |].
  apply (Router_login_without_identity null "#/novel/101"). reflexivity.
Defined.



(** Claim C3, as amended.  The mock [signup] has no uniqueness check and
    never fails: for every username, email and password, whether or not
    they occur in the store already, it resolves to a new user that it
    appends to the store, leaving the users already there as they were.
    The new user carries the given username and email, the role Reader,
    and as id the largest id of the store plus one, which is above
    every finite id of the store. *)
Theorem signup_always_appends
    (mockUsers : list User) (username email pass isoNow random : string) :
  exists u,
    mockApiService.signup mockUsers username email pass isoNow random
    = (mockUsers ++ [u], Resolved (Present u))
    /\ types.username u = username
    /\ types.email u = email
    /\ role u = READER
    /\ user_id u = number_plus (Math_max (map user_id mockUsers)) 1
    /\ (forall v z, In v mockUsers -> user_id v = Num z ->
          exists z', user_id u = Num z' /\ z < z').
Proof.
  eexists. split; [reflexivity |]. cbn [mockApiService.newUser types.username
    types.email role user_id]. repeat split.
  intros v z Hv Hz.
  destruct (Math_max_upper (map user_id mockUsers) z) as (m & -> & Hm).
  { rewrite <- Hz. apply in_map, Hv. }
  exists (m + 1). split; [reflexivity | lia].
Qed.

(** Claim C3 fails as stated: signing up with the username and email of
    ReaderJoe, who is in the store, is not rejected, and the store
    grows. *)
Lemma signup_duplicate_accepted :
  In mockData.ReaderJoe mockData.mockUsers
  /\ (exists u,
        snd (mockApiService.signup mockData.mockUsers
               (types.username mockData.ReaderJoe) (types.email mockData.ReaderJoe)
               "secret" "2024-01-01T00:00:00.000Z" "0.5")
        = Resolved (Present u)
        /\ types.email u = types.email mockData.ReaderJoe)
  /\ fst (mockApiService.signup mockData.mockUsers
            (types.username mockData.ReaderJoe) (types.email mockData.ReaderJoe)
            "secret" "2024-01-01T00:00:00.000Z" "0.5")
     <> mockData.mockUsers.
Proof.
  split; [left; reflexivity |]. split.
  - eexists. split; reflexivity.
  - intros H. apply (f_equal (@List.length User)) in H. vm_compute in H. discriminate.
Qed.

(** Claim C4, as amended.  With an identity present, the router returns
    the novel-detail view for a safe integer [n] (one below 2^53 in
    magnitude, which a Number holds exactly) exactly when the hash is
    [#/novel/] followed by a text in which [parseInt] finds a leading
    integer [n]:
    optional white space, an optional sign, one or more decimal digits,
    then anything not starting with a digit.  Zero and negative numbers
    are accepted and what follows the digits is ignored.  When the text
    after [#/novel/] has no leading integer ([parseInt] gives [NaN]),
    the router returns the landing view of the identity's role. *)
Theorem Router_novel_detail (u : User) (hash : string) (n : Z) :
  (isSafeInteger n = true ->
   (Router (Present u) hash = NovelDetailPage n
    <-> exists rest, hash = "#/novel/" +:+ rest
                     /\ specification.leadingInteger rest n))
  /\ (forall rest,
        hash = "#/novel/" +:+ rest -> parseInt rest (Some 10) = None ->
        Router (Present u) hash = landing (role u))
  /\ (forall rest,
        parseInt rest (Some 10) = None
        <-> forall m, ~ specification.leadingInteger rest m).
Proof.
  split; [| split].
  - intros _. cbn [Router]. split.
    + destruct (novelRoute hash) as [v|] eqn:Hnovel.
      * intros ->. apply novelRoute_spec in Hnovel as (rest & m & -> & Hm & [= <-]).
        exists rest. split; [reflexivity |]. apply parseInt_decimal, Hm.
      * destruct (readRoute hash) as [v|] eqn:Hread.
        -- intros ->. destruct (readRoute_not_detail _ _ n Hread eq_refl).
        -- intros H. destruct (landing_not_detail _ _ H).
    + intros (rest & -> & Hn). apply parseInt_decimal in Hn.
      assert (novelRoute ("#/novel/" +:+ rest) = Some (NovelDetailPage n)) as ->.
      { apply novelRoute_spec. exists rest, n. auto. }
      reflexivity.
  - intros rest -> Hnan. cbn [Router].
    assert (novelRoute ("#/novel/" +:+ rest) = None) as ->.
    { destruct (novelRoute _) as [v|] eqn:Hnovel; [| reflexivity].
      apply novelRoute_spec in Hnovel as (rest' & m & E & Hm & _).
      apply (f_equal (string_drop (String.length "#/novel/"))) in E.
      rewrite !string_drop_append in E. subst rest'. congruence. }
    rewrite readRoute_novel_prefix. reflexivity.
  - intros rest. split.
    + intros Hnan m Hm. apply parseInt_decimal in Hm. congruence.
    + intros Hno. destruct (parseInt rest (Some 10)) as [m|] eqn:Hm; [| reflexivity].
      apply parseInt_decimal in Hm. destruct (Hno m Hm).
Qed.

Lemma Router_novel_detail_witness :
  Router (Present mockData.WriterJane) "#/novel/101" = NovelDetailPage 101
  /\ Router (Present mockData.WriterJane) "#/novel/abc" = WriterDashboard.
Proof.
  split.
  - apply (proj1 (Router_novel_detail mockData.WriterJane "#/novel/101" 101));
      [reflexivity |].
    exists "101". split; [reflexivity |].
    exists "", "", "101", "". repeat split; try reflexivity.
    + left. reflexivity.
    + discriminate.
  - apply (proj1 (proj2 (Router_novel_detail mockData.WriterJane "#/novel/abc" 0))
             "abc"); reflexivity.
Defined.

(** Claim C4 fails as stated: [12abc] and [-5] are not well-formed
    positive integers, yet the router returns the novel-detail view for
    12 and for -5 instead of falling through to the landing view. *)
Lemma Router_accepts_malformed_id :
  specification.wellFormedPositiveInteger "12abc" = false
  /\ Router (Present mockData.WriterJane) "#/novel/12abc" = NovelDetailPage 12
  /\ specification.wellFormedPositiveInteger "-5" = false
  /\ Router (Present mockData.WriterJane) "#/novel/-5" = NovelDetailPage (-5)
  /\ landing (role mockData.WriterJane) = WriterDashboard.
Proof. repeat split. Qed.

(** Claim C5.  When the data-access call of the session manager's
    [login] fails, that is, it throws or resolves to no user, the
    session (the [user] cell and the session storage) is left as it was,
    the promise [login] returns resolves (nothing is thrown past it),
    and it resolves to an absent value: [null] when the call threw, and
    the call's own absent value when it returned no user. *)
Theorem login_failure_leaves_session
    (JSON_stringify : User -> string)
    (apiService_login : string -> string -> Promise (Nullable User))
    (email pass : string) (s : AuthContext.Session) :
  (forall u, apiService_login email pass <> Resolved (Present u)) ->
  exists r,
    AuthContext.login JSON_stringify apiService_login email pass s
    = (s, Resolved r)
    /\ truthy r = false
    /\ (forall e, apiService_login email pass = Rejected e -> r = null)
    /\ (forall v, apiService_login email pass = Resolved v -> r = v).
Proof.
  intros Hfail. unfold AuthContext.login, AuthContext.settle.
  destruct (apiService_login email pass) as [[| |u]|e].
  - exists undefined. split; [reflexivity |]. split; [reflexivity |].
    split; [discriminate | intros v [= <-]; reflexivity].
  - exists null. split; [reflexivity |]. split; [reflexivity |].
    split; [discriminate | intros v [= <-]; reflexivity].
  - destruct (Hfail u eq_refl).
  - exists null. split; [reflexivity |]. split; [reflexivity |].
    split; [reflexivity | discriminate].
Qed.

Lemma login_failure_leaves_session_witness :
  AuthContext.login (fun u => types.username u)
    (mockApiService.login mockData.mockUsers) "nobody@test.com" "secret"
    samples.emptySession
  = (samples.emptySession, Resolved null).
Proof.
  destruct (login_failure_leaves_session (fun u => types.username u)
              (mockApiService.login mockData.mockUsers)
              "nobody@test.com" "secret" samples.emptySession)
    as (r & E & _ & Hnull & _).
  - intros u. vm_compute. discriminate.
  - rewrite E, (Hnull (Error "User not found")); reflexivity.
Defined.

(** Claim C6.  [getEpisodesByNovelId(novelId)] yields the episodes of
    that novel in ascending order of [release_date].
    Mock layer: provided the clock read while the fixtures were built
    never stepped back by a week or more between two readings, the
    promise resolves to a list in release order that holds exactly the
    episodes of the fixture that belong to the novel.
    Episodes route: a GET request whose [novelId] parses to [novelId],
    in the range of the [Int] column, is answered, when the database
    can be queried, with status 200 and exactly the stored episodes of
    the novel, in release order; and any list of episodes the route
    sends is in release order. *)
Theorem getEpisodesByNovelId_sorted
    (now : nat -> Z) (d : prisma.Database) (req : episodesRoute.NextApiRequest)
    (novelId : Z) :
  ((forall k : nat, now k - 1000 * 3600 * 24 * 7 <= now (S k)) ->
   exists l,
     mockApiService.getEpisodesByNovelId now novelId = Resolved l
     /\ StronglySorted prisma.release_le l
     /\ Forall (fun e => ep_novel_id e = novelId) l
     /\ (forall e, In e l <->
                   In e (mockData.mockEpisodes now) /\ ep_novel_id e = novelId))
  /\ (episodesRoute.method req = "GET" ->
      parseInt (episodesRoute.query_novelId req) None = Some novelId ->
      prisma.isInt novelId = true ->
      prisma.connected d = true ->
      exists l,
        episodesRoute.handler d req
        = {| episodesRoute.statusCode := 200;
             episodesRoute.body := episodesRoute.Episodes l |}
        /\ StronglySorted prisma.release_le l
        /\ Forall (fun e => ep_novel_id e = novelId) l
        /\ (forall e, In e l <-> In e (prisma.episode d) /\ ep_novel_id e = novelId))
  /\ (forall l,
        episodesRoute.body (episodesRoute.handler d req) = episodesRoute.Episodes l ->
        StronglySorted prisma.release_le l
        /\ exists id, parseInt (episodesRoute.query_novelId req) None = Some id
                      /\ Forall (fun e => ep_novel_id e = id) l).
Proof.
  split; [| split].
  - intros Hclock. eexists. split; [reflexivity |]. split; [| split].
    + apply mock_episodes_of_novel_sorted, Hclock.
    + apply List.Forall_forall. intros e [_ He]%filter_In. apply Z.eqb_eq, He.
    + intros e. rewrite filter_In, Z.eqb_eq. reflexivity.
  - intros Hm Hid Hint Hc. unfold episodesRoute.handler. rewrite Hm, Hid.
    change (negb ("GET" =? "GET")%string) with false. cbv iota.
    destruct (proj2 (findMany_resolves d novelId) (conj Hint Hc)) as [l Hq].
    rewrite Hq.
    destruct (findMany_spec _ _ _ Hq) as [Hs Hl].
    exists l. split; [reflexivity |]. split; [exact Hs |]. split; [| exact Hl].
    apply List.Forall_forall. intros e He. apply Hl, He.
  - intros l. unfold episodesRoute.handler.
    destruct (negb _); [discriminate |].
    destruct (parseInt _ None) as [id|] eqn:Hid.
    + destruct (prisma.episode_findMany d (Some id)) as [l'|] eqn:Hq; [| discriminate].
      intros [= <-]. destruct (findMany_spec _ _ _ Hq) as [Hs Hl].
      split; [exact Hs |]. exists id. split; [reflexivity |].
      apply List.Forall_forall. intros e He. apply Hl, He.
    + discriminate.
Qed.

Lemma getEpisodesByNovelId_sorted_witness :
  (exists l,
      mockApiService.getEpisodesByNovelId samples.frozenClock 101 = Resolved l
      /\ StronglySorted prisma.release_le l
      /\ Forall (fun e => ep_novel_id e = 101) l
      /\ (forall e, In e l <->
                    In e (mockData.mockEpisodes samples.frozenClock)
                    /\ ep_novel_id e = 101))
  /\ (exists l,
        episodesRoute.handler samples.library
          {| episodesRoute.method := "GET"; episodesRoute.query_novelId := "7" |}
        = {| episodesRoute.statusCode := 200;
             episodesRoute.body := episodesRoute.Episodes l |}
        /\ StronglySorted prisma.release_le l
        /\ Forall (fun e => ep_novel_id e = 7) l
        /\ (forall e, In e l <->
                      In e (prisma.episode samples.library) /\ ep_novel_id e = 7)).
Proof.
  destruct (getEpisodesByNovelId_sorted samples.frozenClock samples.library
              {| episodesRoute.method := "GET"; episodesRoute.query_novelId := "7" |}
              101) as (Hmock & _ & _).
  destruct (getEpisodesByNovelId_sorted samples.frozenClock samples.library
              {| episodesRoute.method := "GET"; episodesRoute.query_novelId := "7" |}
              7) as (_ & Hroute & _).
  split.
  - apply Hmock. intros k. unfold samples.frozenClock. lia.
  - apply Hroute; reflexivity.
Defined.

(** Claim C7, as amended.  The data-access layer does not normalise its
    failures.  A rejection of [fetchAPI] is the rejection of [fetch]
    itself, or the rejection of [response.json()], both passed on
    unchanged, or, for a response outside 200-299 whose body parsed, a
    [TypeError] when the body is [null] and otherwise a plain [Error]
    whose message is the text of the body's [error] member when that is
    truthy and [API call failed with status <status>] otherwise.  The mock [login] fails only
    with the plain [Error('User not found')].  The errors the layer
    creates itself are never of the kinds NotFoundError, ConflictError or
    TransportError. *)
Theorem failures_pass_through
    (fetch : apiService.Fetch) (url : string) (options : apiService.RequestInit)
    (mockUsers : list User) (email pass : string) (e : exn) :
  (apiService.fetchAPI fetch url options = Rejected e ->
   fetch url (apiService.spread apiService.defaultOptions options) = Rejected e
   \/ (exists response,
         fetch url (apiService.spread apiService.defaultOptions options)
         = Resolved response
         /\ apiService.json response = Rejected e)
   \/ (exists response errorData,
         fetch url (apiService.spread apiService.defaultOptions options)
         = Resolved response
         /\ apiService.ok response = false
         /\ apiService.json response = Resolved errorData
         /\ specification.normalized_kind e = false
         /\ (errorData = JNull /\ name e = "TypeError"
             \/ exists error,
                  get errorData "error" = Resolved error
                  /\ e = new_Error
                           (or_else error
                              (Some (JString
                                 ("API call failed with status "
                                    +:+ Number_toString (apiService.status response))))))))
  /\ (mockApiService.login mockUsers email pass = Rejected e ->
      e = Error "User not found" /\ specification.normalized_kind e = false).
Proof.
  split.
  - unfold apiService.fetchAPI.
    destruct (fetch url _) as [response|e0] eqn:Hfetch; cbn [mbind Promise_bind].
    2:{ intros [= <-]. left. reflexivity. }
    destruct (apiService.ok response) eqn:Hok; cbn [negb].
    { intros H. right. left. exists response. auto. }
    destruct (apiService.json response) as [errorData|e0] eqn:Hjson;
      cbn [mbind Promise_bind].
    2:{ intros [= <-]. right. left. exists response. auto. }
    intros H. right. right. exists response, errorData.
    split; [reflexivity |]. split; [exact Hok |]. split; [exact Hjson |].
    destruct errorData as [| | | | |ps]; cbn [get mbind Promise_bind] in H |- *;
      injection H as <-; (split; [reflexivity |]);
      first [ left; split; reflexivity
            | right; eexists; split; reflexivity ].
  - intros H. apply mock_login_rejection in H as ->. split; reflexivity.
Qed.

Lemma failures_pass_through_witness :
  apiService.fetchAPI samples.offline "/api/novels/101/episodes" apiService.noOptions
  = Rejected (TypeError "Failed to fetch")
  /\ specification.normalized_kind (Error "User not found") = false.
Proof.
  split; [reflexivity |].
  apply (proj2 (failures_pass_through samples.offline "/api/novels/101/episodes"
                  apiService.noOptions mockData.mockUsers "nobody@test.com" "secret"
                  (Error "User not found"))).
  reflexivity.
Defined.

(** Claim C7 fails as stated: when [fetch] rejects at the network level,
    [fetchAPI] and the operations built on it reject with that raw
    [TypeError], which is none of the normalised kinds; and the failure
    of the mock [login] is a plain [Error]. *)
Lemma raw_transport_error_escapes :
  apiService.getEpisodesByNovelId samples.offline 101
  = Rejected (TypeError "Failed to fetch")
  /\ specification.normalized_kind (TypeError "Failed to fetch") = false
  /\ mockApiService.login mockData.mockUsers "nobody@test.com" "secret"
     = Rejected (Error "User not found")
  /\ specification.normalized_kind (Error "User not found") = false.
Proof. repeat split. Qed.

(** Claim C8.  [getFantasyNovels()] of the mock layer resolves, to six
    novels, and each of them has [Fantasy] among its tags. *)
Theorem getFantasyNovels_tagged (now : nat -> Z) :
  exists l,
    mockApiService.getFantasyNovels now = Resolved l
    /\ List.length l = 6%nat
    /\ Forall (fun n => In "Fantasy" (tags n)) l.
Proof.
  eexists. split; [reflexivity |]. split; [reflexivity |].
  unfold Array_slice. apply Forall_take, Forall_drop.
  eapply Forall_impl; [apply mockNovels_tags |].
  intros n ->. left. reflexivity.
Qed.

(** Claim C9.  The threading transform drops orphans: a comment whose
    [parent_comment_id] is the [comment_id] of no comment of the input
    occurs nowhere in the forest built from the input, neither as a
    root nor as a reply at any depth. *)
Theorem orphan_dropped
    (comments : list commentThreading.Comment) (c : commentThreading.Comment)
    (p : Z) :
  commentThreading.parent_comment_id c = Some p ->
  (forall k, In k comments -> commentThreading.comment_id k <> p) ->
  ~ In c (commentThreading.forest_comments (commentThreading.buildThreads comments)).
Proof.
  intros Hp Hnone Hin. apply buildThreads_anchored in Hin.
  unfold commentThreading.anchored in Hin. rewrite Hp in Hin.
  destruct Hin as (k & Hk & E). exact (Hnone k Hk E).
Qed.

Lemma orphan_dropped_witness :
  In (samples.note 4 (Some 99)) samples.conversation
  /\ ~ In (samples.note 4 (Some 99))
         (commentThreading.forest_comments
            (commentThreading.buildThreads samples.conversation)).
Proof.
  split; [right; right; left; reflexivity |].
  apply (orphan_dropped samples.conversation (samples.note 4 (Some 99)) 99).
  - reflexivity.
  - decide_all.
Defined.

(** Claim C10.  In the mock layer, when no user of the store has the
    given email, [signup(username, email, password)] resolves to a user
    [u], and a [login(email, p)] right after it, for any password [p],
    resolves to that same [u]. *)
Theorem signup_then_login
    (mockUsers : list User) (username email pass isoNow random p : string) :
  (forall v, In v mockUsers -> types.email v <> email) ->
  exists u,
    mockApiService.signup mockUsers username email pass isoNow random
    = (mockUsers ++ [u], Resolved (Present u))
    /\ mockApiService.login (mockUsers ++ [u]) email p = Resolved (Present u).
Proof.
  intros Hfresh. eexists. split; [reflexivity |].
  unfold mockApiService.login, Array_find.
  rewrite find_app_new.
  - reflexivity.
  - intros v Hv. apply String.eqb_neq, Hfresh, Hv.
  - apply String.eqb_refl.
Qed.

Lemma signup_then_login_witness :
  exists u,
    mockApiService.signup mockData.mockUsers "NewReader" "new@test.com" "secret"
      "2024-01-01T00:00:00.000Z" "0.5"
    = (mockData.mockUsers ++ [u], Resolved (Present u))
    /\ mockApiService.login (mockData.mockUsers ++ [u]) "new@test.com" "other"
       = Resolved (Present u).
Proof.
  apply (signup_then_login mockData.mockUsers "NewReader" "new@test.com"
           "secret" "2024-01-01T00:00:00.000Z" "0.5" "other").
  decide_all.
Defined.

(* ===================================================================== *)
(** * The sources at work on the specification's examples                 *)
(* ===================================================================== *)

(** A Writer at [#/novel/101] sees the detail view of novel 101, an
    Admin at the empty hash the admin dashboard. *)
Example Router_examples :
  Router (Present mockData.WriterJane) "#/novel/101" = NovelDetailPage 101
  /\ Router (Present mockData.AdminAlex) "" = AdminDashboard
  /\ Router (Present mockData.ReaderJoe) "#/read/101/10101"
     = ReadNovelPage 101 10101
  /\ Router (Present mockData.ReaderJoe) "#/read/101/x" = HomePage.
Proof. repeat split. Qed.

(** A root (id 1) and its reply (id 3) give one thread with the reply
    attached; the orphan (id 4) is dropped. *)
Example buildThreads_example :
  commentThreading.buildThreads samples.conversation
  = [commentThreading.Node (samples.note 1 None)
       [commentThreading.Node (samples.note 3 (Some 1)) []]].
Proof. reflexivity. Qed.

(** After [logout] the router shows the login view, and a restore, as
    on a reload, finds no stored session. *)
Example logout_example
    (JSON_parse : string -> Promise (Nullable User))
    (s : AuthContext.Session) (hash : string) :
  Router (AuthContext.user (AuthContext.logout s)) hash = LoginPage
  /\ AuthContext.restore JSON_parse (AuthContext.logout s)
     = (AuthContext.logout s, Resolved ()).
Proof.
  split; [reflexivity |]. unfold AuthContext.restore.
  cbn [AuthContext.logout AuthContext.removeItem AuthContext.setUser
       AuthContext.sessionStorage].
  rewrite lookup_delete_eq. reflexivity.
Qed.

(** The remote layer reads the episodes of novel 7 in release order. *)
Example remote_getEpisodesByNovelId_example :
  apiService.getEpisodesByNovelId (server.serve samples.instantText samples.site) 7
  = Resolved (JArray (map (server.Episode_toJSON samples.instantText)
                        [samples.chapter 1 7 200; samples.chapter 2 7 300])).
Proof. reflexivity. Qed.

(** [getEpisode] finds an episode under its own novel, in both layers. *)
Example getEpisode_examples :
  (exists e,
      mockApiService.getEpisode samples.frozenClock 101 10103 = Resolved (Present e)
      /\ episode_id e = 10103 /\ ep_novel_id e = 101)
  /\ apiService.getEpisode (server.serve samples.instantText samples.site) 7 2
     = Resolved (Some (server.Episode_toJSON samples.instantText
                         (samples.chapter 2 7 300))).
Proof. split; [eexists; repeat split |]; reflexivity. Qed.

(* ===================================================================== *)
(** * Further facts about the router                                      *)
(* ===================================================================== *)

Section MoreRouterFacts.

Lemma split_without_separator (sep : ascii) (s : string) :
  (forall c, In c (list_ascii_of_string s) -> c <> sep) ->
  split sep s = [s].
Proof.
  induction s as [|c s IH]; intros H; cbn [split]; [reflexivity |].
  assert (Ascii.eqb c sep = false) as ->.
  { apply Ascii.eqb_neq, H. left. reflexivity. }
  rewrite IH; [reflexivity |]. intros d Hd. apply H. right. exact Hd.
Qed.

Lemma novelRoute_read_prefix rest : novelRoute ("#/read/" +:+ rest) = None.
Proof. reflexivity. Qed.

Lemma readRoute_unfold rest :
  readRoute ("#/read/" +:+ rest)
  = match parseInt_at (split "/" rest) 0 (Some 10),
          parseInt_at (split "/" rest) 1 (Some 10) with
    | Some n, Some e => Some (ReadNovelPage n e)
    | _, _ => None
    end.
Proof.
  unfold readRoute, startsWith. rewrite prefix_append, replace_append. reflexivity.
Qed.

Lemma Router_read_unfold (u : User) rest :
  Router (Present u) ("#/read/" +:+ rest)
  = match parseInt_at (split "/" rest) 0 (Some 10),
          parseInt_at (split "/" rest) 1 (Some 10) with
    | Some n, Some e => ReadNovelPage n e
    | _, _ => landing (role u)
    end.
Proof.
  cbn [Router]. rewrite novelRoute_read_prefix, readRoute_unfold.
  repeat case_match; simplify_eq; reflexivity.
Qed.

Lemma landing_not_read r n e : landing r <> ReadNovelPage n e.
Proof. destruct r; discriminate. Qed.

Lemma landing_not_login r : landing r <> LoginPage.
Proof. destruct r; discriminate. Qed.

(** The three ways out of the router for an identity that is present. *)
Lemma Router_cases (u : User) (hash : string) :
  (exists n, novelRoute hash = Some (NovelDetailPage n)
             /\ Router (Present u) hash = NovelDetailPage n)
  \/ (exists n e, novelRoute hash = None
                  /\ readRoute hash = Some (ReadNovelPage n e)
                  /\ Router (Present u) hash = ReadNovelPage n e)
  \/ (novelRoute hash = None /\ readRoute hash = None
      /\ Router (Present u) hash = landing (role u)).
Proof.
  cbn [Router]. destruct (novelRoute hash) as [v|] eqn:Hn.
  - left. apply novelRoute_spec in Hn as (rest & n & _ & _ & ->). eauto.
  - destruct (readRoute hash) as [v|] eqn:Hr.
    + right. left. revert Hr. unfold readRoute.
      intros H. repeat case_match; simplify_eq. eauto.
    + right. right. auto.
Qed.

End MoreRouterFacts.

(* ===================================================================== *)
(** * Further properties of the sources                                   *)
(* ===================================================================== *)

(** Settles [forall c, In c (list_ascii_of_string s) -> c <> sep] for a
    concrete string by evaluation. *)
Ltac decide_chars :=
  match goal with
  | |- forall c, In c ?l -> c <> ?sep =>
      apply (proj1 (List.Forall_forall (fun c => c <> sep) l));
      apply (bool_decide_unpack _); vm_compute; exact I
  end.

(** Property X1.  The reading route.  With an identity present and two
    segments [a] and [b] free of slashes, the router shows the reading
    view for safe integers [(n, e)] at [#/read/a/b] exactly when
    [parseInt] finds the leading integer [n] in [a] and [e] in [b];
    segments after the second are ignored; and with the second segment
    missing the router falls through to the landing view of the role. *)
Theorem Router_read_episode (u : User) (a b more : string) (n e : Z) :
  (forall c, In c (list_ascii_of_string a) -> c <> "/"%char) ->
  (forall c, In c (list_ascii_of_string b) -> c <> "/"%char) ->
  (isSafeInteger n = true -> isSafeInteger e = true ->
   (Router (Present u) ("#/read/" +:+ a +:+ "/" +:+ b) = ReadNovelPage n e
    <-> specification.leadingInteger a n /\ specification.leadingInteger b e))
  /\ Router (Present u) ("#/read/" +:+ a +:+ "/" +:+ b +:+ "/" +:+ more)
     = Router (Present u) ("#/read/" +:+ a +:+ "/" +:+ b)
  /\ Router (Present u) ("#/read/" +:+ a) = landing (role u).
Proof.
  intros Ha Hb.
  assert (split "/" (a +:+ "/" +:+ b) = [a; b]) as E2.
  { rewrite append_String, append_empty.
    rewrite split_at_separator by exact Ha.
    rewrite split_without_separator by exact Hb. reflexivity. }
  assert (exists l, split "/" (a +:+ "/" +:+ b +:+ "/" +:+ more) = a :: b :: l) as [l E3].
  { rewrite !append_String, !append_empty.
    rewrite split_at_separator by exact Ha.
    rewrite split_at_separator by exact Hb. eauto. }
  split; [| split].
  - intros _ _.
    rewrite Router_read_unfold, E2. unfold parseInt_at. cbn [lookup list_lookup default from_option id].
    rewrite <- !parseInt_decimal.
    destruct (parseInt a (Some 10)) as [n'|], (parseInt b (Some 10)) as [e'|]; split;
      first [ intros [= <- <-]; auto
            | intros [[= <-] [= <-]]; reflexivity
            | intros H; exfalso; first [ exact (landing_not_read _ _ _ H)
                                       | destruct H; discriminate ] ].
  - rewrite !Router_read_unfold, E2, E3. reflexivity.
  - rewrite Router_read_unfold, (split_without_separator _ _ Ha).
    assert (parseInt_at [a] 1 (Some 10) = None) as -> by reflexivity.
    destruct (parseInt_at [a] 0%nat (Some 10)); reflexivity.
Qed.

Lemma Router_read_episode_witness :
  (Router (Present mockData.ReaderJoe) "#/read/101/10103x" = ReadNovelPage 101 10103
   <-> specification.leadingInteger "101" 101
       /\ specification.leadingInteger "10103x" 10103)
  /\ Router (Present mockData.ReaderJoe) "#/read/101/10103x/extra"
     = Router (Present mockData.ReaderJoe) "#/read/101/10103x"
  /\ Router (Present mockData.ReaderJoe) "#/read/101" = HomePage.
Proof.
  destruct (Router_read_episode mockData.ReaderJoe "101" "10103x" "extra" 101 10103)
    as (Hiff & Hmore & Hmissing); [decide_chars | decide_chars |].
  split; [apply Hiff; reflexivity |].
  split; [exact Hmore | exact Hmissing].
Defined.

(** Property X2.  The role plays no part once a route matches: for any
    hash and any two identities, either both get the same view (the
    detail or the reading view of the hash), or each gets the landing
    view of its own role.  No role is refused a detail or reading
    view. *)
Theorem Router_role_independent (u1 u2 : User) (hash : string) :
  (Router (Present u1) hash = Router (Present u2) hash
   /\ ((exists n, Router (Present u1) hash = NovelDetailPage n)
       \/ (exists n e, Router (Present u1) hash = ReadNovelPage n e)))
  \/ (Router (Present u1) hash = landing (role u1)
      /\ Router (Present u2) hash = landing (role u2)).
Proof.
  destruct (Router_cases u1 hash) as [(n & Hn & E1) | [(n & e & Hn & Hr & E1) | (Hn & Hr & E1)]];
    destruct (Router_cases u2 hash) as [(n' & Hn' & E2) | [(n' & e' & Hn' & Hr' & E2) | (Hn' & Hr' & E2)]];
    try congruence.
  - left. split; [congruence | left; eauto].
  - left. split; [congruence | right; eauto].
  - right. auto.
Qed.

(** Property X3.  [AppContent] shows the header exactly when the view in
    [main] is not the login page, that is, exactly when an identity is
    present. *)
Theorem AppContent_header_iff_not_login (user : Nullable User) (hash : string) :
  (AppShell.header (AppShell.AppContent user hash) = true
   <-> AppShell.main (AppShell.AppContent user hash) <> LoginPage)
  /\ (AppShell.header (AppShell.AppContent user hash) = true
      <-> exists u, user = Present u).
Proof.
  cbn [AppShell.AppContent AppShell.header AppShell.main].
  destruct user as [| |u]; cbn [truthy].
  - split; split; first [discriminate | intros H; exfalso; apply H; reflexivity | intros [u [=]]].
  - split; split; first [discriminate | intros H; exfalso; apply H; reflexivity | intros [u [=]]].
  - split; split; try (intros _; reflexivity); [| eauto].
    intros _ H.
    destruct (Router_cases u hash) as [(n & _ & E) | [(n & e & _ & _ & E) | (_ & _ & E)]];
      rewrite E in H; first [discriminate | exact (landing_not_login _ H)].
Qed.

Lemma AppContent_header_iff_not_login_witness :
  AppShell.header (AppShell.AppContent (Present mockData.ReaderJoe) "#/novel/101")
  = true.
Proof.
  apply (proj2 (proj1 (AppContent_header_iff_not_login
                         (Present mockData.ReaderJoe) "#/novel/101"))).
  vm_compute. discriminate.
Defined.

(** Property X4.  A successful [login] (the data-access call resolves to
    a user [u] and the session storage accepts the write) makes [u] the
    current identity, stores [JSON.stringify(u)] under the key [user]
    whatever was stored there before, leaves every other entry and the
    hash alone, and resolves to [u]. *)
Theorem login_success_persists
    (JSON_stringify : User -> string)
    (apiService_login : string -> string -> Promise (Nullable User))
    (email pass : string) (s : AuthContext.Session) (u : User) :
  apiService_login email pass = Resolved (Present u) ->
  AuthContext.storage_accepts_writes s = true ->
  exists s',
    AuthContext.login JSON_stringify apiService_login email pass s
    = (s', Resolved (Present u))
    /\ AuthContext.user s' = Present u
    /\ AuthContext.sessionStorage s' !! "user" = Some (JSON_stringify u)
    /\ (forall k, k <> "user" ->
          AuthContext.sessionStorage s' !! k = AuthContext.sessionStorage s !! k)
    /\ AuthContext.location_hash s' = AuthContext.location_hash s.
Proof.
  intros Hcall Hw. unfold AuthContext.login, AuthContext.settle, AuthContext.setItem.
  rewrite Hcall. cbn [AuthContext.setUser AuthContext.storage_accepts_writes].
  rewrite Hw. eexists. split; [reflexivity |].
  cbn [AuthContext.user AuthContext.sessionStorage AuthContext.location_hash].
  split; [reflexivity |]. split; [apply lookup_insert_eq |]. split; [| reflexivity].
  intros k Hk. apply lookup_insert_ne. congruence.
Qed.

Lemma login_success_persists_witness :
  exists s',
    AuthContext.login moreSamples.userText (mockApiService.login mockData.mockUsers)
      "writer@test.com" "secret" samples.emptySession
    = (s', Resolved (Present mockData.WriterJane))
    /\ AuthContext.user s' = Present mockData.WriterJane
    /\ AuthContext.sessionStorage s' !! "user" = Some "WriterJane".
Proof.
  destruct (login_success_persists moreSamples.userText
              (mockApiService.login mockData.mockUsers)
              "writer@test.com" "secret" samples.emptySession mockData.WriterJane)
    as (s' & E & Hu & Hs & _); [reflexivity | reflexivity |].
  exists s'. auto.
Defined.

(** Property X5.  When the data-access call resolves to a user [u] but
    [sessionStorage.setItem] throws (the quota is exceeded), [login]
    resolves to [null] although the identity has already been set to
    [u]: the caller is told of a failure while the router, reading the
    identity, leaves the login page; nothing is persisted. *)
Theorem login_storage_failure_keeps_identity
    (JSON_stringify : User -> string)
    (apiService_login : string -> string -> Promise (Nullable User))
    (email pass hash : string) (s : AuthContext.Session) (u : User) :
  apiService_login email pass = Resolved (Present u) ->
  AuthContext.storage_accepts_writes s = false ->
  exists s',
    AuthContext.login JSON_stringify apiService_login email pass s
    = (s', Resolved null)
    /\ AuthContext.user s' = Present u
    /\ AuthContext.sessionStorage s' = AuthContext.sessionStorage s
    /\ Router (AuthContext.user s') hash <> LoginPage.
Proof.
  intros Hcall Hw. unfold AuthContext.login, AuthContext.settle, AuthContext.setItem.
  rewrite Hcall. cbn [AuthContext.setUser AuthContext.storage_accepts_writes].
  rewrite Hw. eexists. split; [reflexivity |].
  cbn [AuthContext.user AuthContext.sessionStorage].
  split; [reflexivity |]. split; [reflexivity |].
  intros H. change (Router (Present u) hash = LoginPage) in H.
  destruct (Router_cases u hash) as [(n & _ & E) | [(n & e & _ & _ & E) | (_ & _ & E)]];
    rewrite E in H; first [discriminate | exact (landing_not_login _ H)].
Qed.

Lemma login_storage_failure_keeps_identity_witness :
  exists s',
    AuthContext.login moreSamples.userText (mockApiService.login mockData.mockUsers)
      "writer@test.com" "secret"
      {| AuthContext.user := null; AuthContext.sessionStorage := ∅;
         AuthContext.storage_accepts_writes := false;
         AuthContext.location_hash := "" |}
    = (s', Resolved null)
    /\ AuthContext.user s' = Present mockData.WriterJane.
Proof.
  destruct (login_storage_failure_keeps_identity moreSamples.userText
              (mockApiService.login mockData.mockUsers)
              "writer@test.com" "secret" ""
              {| AuthContext.user := null; AuthContext.sessionStorage := ∅;
                 AuthContext.storage_accepts_writes := false;
                 AuthContext.location_hash := "" |} mockData.WriterJane)
    as (s' & E & Hu & _); [reflexivity | reflexivity |].
  exists s'. auto.
Defined.

(** Property X6.  The session survives a reload: after a successful
    [login] as [u], when [JSON.parse] reads back what [JSON.stringify]
    wrote for [u] (a non-empty text), the provider that mounts over the
    same tab restores [u] as the identity and changes nothing else. *)
Theorem login_then_reload_restores
    (JSON_stringify : User -> string)
    (JSON_parse : string -> Promise (Nullable User))
    (apiService_login : string -> string -> Promise (Nullable User))
    (email pass : string) (s : AuthContext.Session) (u : User) :
  apiService_login email pass = Resolved (Present u) ->
  AuthContext.storage_accepts_writes s = true ->
  JSON_stringify u <> "" ->
  JSON_parse (JSON_stringify u) = Resolved (Present u) ->
  AppShell.AuthProvider_mount JSON_parse
    (fst (AuthContext.login JSON_stringify apiService_login email pass s))
  = (fst (AuthContext.login JSON_stringify apiService_login email pass s),
     Resolved ()).
Proof.
  intros Hcall Hw Hne Hparse.
  unfold AuthContext.login, AuthContext.settle, AuthContext.setItem.
  rewrite Hcall. cbn [AuthContext.setUser AuthContext.storage_accepts_writes].
  rewrite Hw. cbn [fst].
  unfold AppShell.AuthProvider_mount, AuthContext.restore.
  cbn [AuthContext.setUser AuthContext.sessionStorage AuthContext.user
       AuthContext.storage_accepts_writes AuthContext.location_hash].
  rewrite lookup_insert_eq.
  apply String.eqb_neq in Hne. rewrite Hne. cbn [negb].
  rewrite Hparse. reflexivity.
Qed.

Lemma login_then_reload_restores_witness :
  AuthContext.user
    (fst (AppShell.AuthProvider_mount moreSamples.userOfText
            (fst (AuthContext.login moreSamples.userText
                    (mockApiService.login mockData.mockUsers)
                    "reader@test.com" "secret" samples.emptySession))))
  = Present mockData.ReaderJoe.
Proof.
  rewrite (login_then_reload_restores moreSamples.userText moreSamples.userOfText
             (mockApiService.login mockData.mockUsers)
             "reader@test.com" "secret" samples.emptySession mockData.ReaderJoe);
    [reflexivity | reflexivity | reflexivity | discriminate | reflexivity].
Defined.

(** Property X7.  [logout] clears the identity, removes the stored
    [user] entry and nothing else, and empties the hash.  It undoes any
    [login]: whatever the data-access call gave, logging out after it
    leaves the session as logging out before it would; in particular a
    second [logout] changes nothing.  A provider that mounts afterwards
    restores no identity, and the router shows the login page. *)
Theorem logout_clears_session
    (JSON_stringify : User -> string)
    (JSON_parse : string -> Promise (Nullable User))
    (apiService_login : string -> string -> Promise (Nullable User))
    (email pass hash : string) (s : AuthContext.Session) :
  AuthContext.user (AuthContext.logout s) = null
  /\ AuthContext.sessionStorage (AuthContext.logout s) !! "user" = None
  /\ (forall k, k <> "user" ->
        AuthContext.sessionStorage (AuthContext.logout s) !! k
        = AuthContext.sessionStorage s !! k)
  /\ AuthContext.location_hash (AuthContext.logout s) = ""
  /\ AuthContext.logout
       (fst (AuthContext.login JSON_stringify apiService_login email pass s))
     = AuthContext.logout s
  /\ AuthContext.logout (AuthContext.logout s) = AuthContext.logout s
  /\ AppShell.AuthProvider_mount JSON_parse (AuthContext.logout s)
     = (AuthContext.logout s, Resolved ())
  /\ Router (AuthContext.user (AuthContext.logout s)) hash = LoginPage.
Proof.
  unfold AuthContext.logout.
  cbn [AuthContext.setUser AuthContext.removeItem AuthContext.user
       AuthContext.sessionStorage AuthContext.storage_accepts_writes
       AuthContext.location_hash].
  split; [reflexivity |]. split; [apply lookup_delete_eq |].
  split; [intros k Hk; apply lookup_delete_ne; congruence |].
  split; [reflexivity |]. split; [| split; [| split]].
  - unfold AuthContext.login, AuthContext.settle, AuthContext.setItem.
    destruct (apiService_login email pass) as [[| |u]|e]; cbn [fst]; try reflexivity.
    cbn [AuthContext.setUser AuthContext.storage_accepts_writes].
    destruct (AuthContext.storage_accepts_writes s) eqn:Hw; cbn [fst
      AuthContext.sessionStorage AuthContext.storage_accepts_writes
      AuthContext.location_hash].
    + rewrite delete_insert_eq. reflexivity.
    + cbn [AuthContext.setUser AuthContext.sessionStorage
           AuthContext.storage_accepts_writes]. rewrite Hw. reflexivity.
  - rewrite delete_delete_eq. reflexivity.
  - unfold AppShell.AuthProvider_mount, AuthContext.restore.
    cbn [AuthContext.setUser AuthContext.sessionStorage].
    rewrite lookup_delete_eq. reflexivity.
  - reflexivity.
Qed.

Lemma logout_clears_session_witness :
  AuthContext.sessionStorage
    (AuthContext.logout
       {| AuthContext.user := Present mockData.ReaderJoe;
          AuthContext.sessionStorage := {[ "user" := "ReaderJoe"; "theme" := "dark" ]};
          AuthContext.storage_accepts_writes := true;
          AuthContext.location_hash := "#/novel/101" |}) !! "theme"
  = Some "dark".
Proof.
  destruct (logout_clears_session moreSamples.userText moreSamples.userOfText
              (mockApiService.login mockData.mockUsers) "reader@test.com" "secret" ""
              {| AuthContext.user := Present mockData.ReaderJoe;
                 AuthContext.sessionStorage :=
                   {[ "user" := "ReaderJoe"; "theme" := "dark" ]};
                 AuthContext.storage_accepts_writes := true;
                 AuthContext.location_hash := "#/novel/101" |})
    as (_ & _ & Hother & _).
  rewrite (Hother "theme") by discriminate.
  reflexivity.
Defined.

(** Property X8.  The restoring effect touches only the identity.  With
    no [user] entry, or an empty one, it leaves the session as it is
    without parsing anything; when [JSON.parse] throws on the stored
    text, the exception leaves the effect uncaught and the session is
    unchanged; when it parses, the parsed value becomes the identity.
    The storage and the hash are never written. *)
Theorem restore_outcomes
    (JSON_parse : string -> Promise (Nullable User)) (s : AuthContext.Session) :
  (AuthContext.sessionStorage s !! "user" = None
   \/ AuthContext.sessionStorage s !! "user" = Some "" ->
   AuthContext.restore JSON_parse s = (s, Resolved ()))
  /\ (forall t e,
        AuthContext.sessionStorage s !! "user" = Some t -> t <> "" ->
        JSON_parse t = Rejected e ->
        AuthContext.restore JSON_parse s = (s, Rejected e))
  /\ (forall t v,
        AuthContext.sessionStorage s !! "user" = Some t -> t <> "" ->
        JSON_parse t = Resolved v ->
        AuthContext.restore JSON_parse s = (AuthContext.setUser v s, Resolved ()))
  /\ AuthContext.sessionStorage (fst (AuthContext.restore JSON_parse s))
     = AuthContext.sessionStorage s
  /\ AuthContext.location_hash (fst (AuthContext.restore JSON_parse s))
     = AuthContext.location_hash s.
Proof.
  unfold AuthContext.restore. split; [| split; [| split]].
  - intros [-> | ->]; reflexivity.
  - intros t e -> Ht%String.eqb_neq ->. rewrite Ht. reflexivity.
  - intros t v -> Ht%String.eqb_neq ->. rewrite Ht. reflexivity.
  - destruct (AuthContext.sessionStorage s !! "user") as [t|]; [| split; reflexivity].
    destruct (negb _); [| split; reflexivity].
    destruct (JSON_parse t); split; reflexivity.
Qed.

Lemma restore_outcomes_witness :
  AuthContext.restore (fun _ => Rejected (SyntaxError "Unexpected token"))
    {| AuthContext.user := null;
       AuthContext.sessionStorage := {[ "user" := "{oops" ]};
       AuthContext.storage_accepts_writes := true;
       AuthContext.location_hash := "" |}
  = ({| AuthContext.user := null;
        AuthContext.sessionStorage := {[ "user" := "{oops" ]};
        AuthContext.storage_accepts_writes := true;
        AuthContext.location_hash := "" |},
     Rejected (SyntaxError "Unexpected token")).
Proof.
  apply (proj1 (proj2 (restore_outcomes
                         (fun _ => Rejected (SyntaxError "Unexpected token"))
                         {| AuthContext.user := null;
                            AuthContext.sessionStorage := {[ "user" := "{oops" ]};
                            AuthContext.storage_accepts_writes := true;
                            AuthContext.location_hash := "" |}))
           "{oops" (SyntaxError "Unexpected token"));
    [reflexivity | discriminate | reflexivity].
Defined.

(* ===================================================================== *)
(** * Further facts about the mock layer and its fixtures                 *)
(* ===================================================================== *)

#[local] Instance number_eq_dec : EqDecision number.
Proof. solve_decision. Defined.

Section MoreMockFacts.

Lemma find_app_old {A} (p : A -> bool) (l k : list A) (a : A) :
  List.find p l = Some a -> List.find p (l ++ k) = Some a.
Proof.
  induction l as [|b l IH]; cbn [app List.find]; [discriminate |].
  destruct (p b); [auto | exact IH].
Qed.

Lemma find_filter {A} (p q : A -> bool) (l : list A) :
  List.find (fun x => p x && q x) l = List.find q (List.filter p l).
Proof.
  induction l as [|a l IH]; cbn [List.find List.filter]; [reflexivity |].
  destruct (p a); cbn [andb List.find]; [rewrite IH; reflexivity | exact IH].
Qed.

Lemma map_filter_key {A K} (key : A -> K) (g : K -> bool) (l : list A) :
  map key (List.filter (fun a => g (key a)) l) = List.filter g (map key l).
Proof.
  induction l as [|a l IH]; cbn [List.filter map]; [reflexivity |].
  destruct (g (key a)); cbn [map]; rewrite IH; reflexivity.
Qed.

Lemma Math_max_finite (l : list number) :
  l <> [] -> (forall x, In x l -> exists z, x = Num z) ->
  exists m, Math_max l = Num m /\ forall z, In (Num z) l -> z <= m.
Proof.
  intros Hne Hfin. destruct l as [|x l]; [congruence |].
  destruct (Hfin x (or_introl eq_refl)) as [z0 ->].
  destruct (Math_max_upper (Num z0 :: l) z0 (or_introl eq_refl)) as (m & E & _).
  exists m. split; [exact E |]. intros z Hz.
  destruct (Math_max_upper (Num z0 :: l) z Hz) as (m' & E' & Hle). congruence.
Qed.

Variable now : nat -> Z.

Lemma mockNovels_fields :
  Forall (fun n =>
            title n = "The Crimson Cipher " +:+ Number_toString (novel_id n - 100)
            /\ author n = {| author_user_id := 2; author_username := "WriterJane" |})
    (mockData.mockNovels now).
Proof.
  rewrite mockNovels_eq. apply init_map_Forall. intros i k. split; [| reflexivity].
  cbn [title novel_id mockData.init_bind mockData.Date_now mockData.init_ret fst].
  do 2 f_equal. lia.
Qed.

Lemma mockNovels_id_range (id : Z) :
  In id (map novel_id (mockData.mockNovels now)) <-> 101 <= id <= 112.
Proof.
  rewrite mockNovels_ids, in_map_iff. split.
  - intros (i & <- & Hi%in_seq). lia.
  - intros H. exists (Z.to_nat (id - 101)). split; [lia |]. apply in_seq. lia.
Qed.

End MoreMockFacts.

(** Property X9.  The mock [login] never looks at the password, and it
    answers with a user of the store or not at all: when some user of
    the store has the email it resolves to such a user; when none has
    it and the email is none of the four test addresses it fails with
    [Error('User not found')]. *)
Theorem mock_login_outcomes
    (mockUsers : list User) (email pass pass' : string) :
  mockApiService.login mockUsers email pass
  = mockApiService.login mockUsers email pass'
  /\ (forall u, mockApiService.login mockUsers email pass = Resolved (Present u) ->
        In u mockUsers)
  /\ ((exists v, In v mockUsers /\ types.email v = email) ->
      exists u, mockApiService.login mockUsers email pass = Resolved (Present u)
                /\ In u mockUsers /\ types.email u = email)
  /\ ((forall v, In v mockUsers -> types.email v <> email) ->
      ~ In email ["reader@test.com"; "writer@test.com"; "admin@test.com";
                  "dev@test.com"] ->
      mockApiService.login mockUsers email pass = Rejected (Error "User not found")).
Proof.
  split; [reflexivity |]. split; [| split].
  - unfold mockApiService.login, mockApiService.delay, Array_find.
    intros u H.
    repeat match type of H with
           | context [List.find ?p ?l] =>
               let Hf := fresh "Hf" in
               destruct (List.find p l) eqn:Hf; cbn [truthy] in H;
               [apply find_some in Hf as [Hf _] |]
           | context [String.eqb ?a ?b] => destruct (String.eqb a b)
           end; simplify_eq; assumption.
  - intros (v & Hv & Ev). unfold mockApiService.login, mockApiService.delay, Array_find.
    destruct (List.find _ mockUsers) as [u|] eqn:Hf.
    + apply find_some in Hf as [Hu Eu%String.eqb_eq]. exists u. auto.
    + apply find_none with (x := v) in Hf; [| exact Hv].
      apply String.eqb_neq in Hf. contradiction.
  - intros Hnone Hnot. unfold mockApiService.login, mockApiService.delay, Array_find.
    assert (List.find (fun u => String.eqb (types.email u) email) mockUsers = None) as ->.
    { apply find_none_iff. intros x Hx. apply String.eqb_neq, Hnone, Hx. }
    cbn [truthy].
    repeat match goal with
           | |- context [String.eqb email ?b] =>
               destruct (String.eqb_spec email b) as [E | _];
               [exfalso; apply Hnot; rewrite E; cbn; tauto |]
           end.
    reflexivity.
Qed.

Lemma mock_login_outcomes_witness :
  (exists u, mockApiService.login mockData.mockUsers "admin@test.com" "any"
             = Resolved (Present u)
             /\ In u mockData.mockUsers /\ types.email u = "admin@test.com")
  /\ mockApiService.login mockData.mockUsers "nobody@test.com" "any"
     = Rejected (Error "User not found").
Proof.
  split.
  - apply (proj1 (proj2 (proj2 (mock_login_outcomes mockData.mockUsers
                                  "admin@test.com" "any" "other")))).
    exists mockData.AdminAlex. split; [cbn; tauto | reflexivity].
  - apply (proj2 (proj2 (proj2 (mock_login_outcomes mockData.mockUsers
                                  "nobody@test.com" "any" "other")))).
    + decide_all.
    + apply (bool_decide_unpack _). vm_compute. exact I.
Defined.

(** Property X10.  An email belongs to its first holder: when a user of
    the store already has the email, a [signup] with that email still
    adds a user, but every later [login] with the email goes on
    resolving to the earlier user, so the account just created cannot
    be logged into. *)
Theorem duplicate_signup_is_shadowed
    (mockUsers : list User) (username email pass isoNow random p : string) :
  (exists v, In v mockUsers /\ types.email v = email) ->
  exists old,
    In old mockUsers
    /\ mockApiService.login mockUsers email p = Resolved (Present old)
    /\ mockApiService.login
         (fst (mockApiService.signup mockUsers username email pass isoNow random))
         email p
       = Resolved (Present old).
Proof.
  intros (v & Hv & Ev). cbn [mockApiService.signup fst].
  unfold mockApiService.login, mockApiService.delay, Array_find.
  destruct (List.find (fun u => String.eqb (types.email u) email) mockUsers)
    as [old|] eqn:Hf.
  - rewrite (find_app_old _ _ _ _ Hf). apply find_some in Hf as [Hold _].
    exists old. auto.
  - apply find_none with (x := v) in Hf; [| exact Hv].
    apply String.eqb_neq in Hf. contradiction.
Qed.

Lemma duplicate_signup_is_shadowed_witness :
  mockApiService.login
    (fst (mockApiService.signup mockData.mockUsers "Impostor" "reader@test.com"
            "secret" "2024-01-01T00:00:00.000Z" "0.5"))
    "reader@test.com" "secret"
  = Resolved (Present mockData.ReaderJoe).
Proof.
  destruct (duplicate_signup_is_shadowed mockData.mockUsers "Impostor"
              "reader@test.com" "secret" "2024-01-01T00:00:00.000Z" "0.5" "secret")
    as (old & _ & Eold & E).
  - exists mockData.ReaderJoe. split; [cbn; tauto | reflexivity].
  - rewrite E, <- Eold. reflexivity.
Defined.

(** Property X11.  [signup] keeps the ids of the store finite and
    pairwise distinct: on a store that is not empty, whose ids are
    numbers without repetition, the store after [signup] is again such a
    store, one user longer.  On an empty store, the new id is
    [-Infinity] ([Math.max()] of nothing, plus one). *)
Theorem signup_keeps_ids_distinct
    (mockUsers : list User) (username email pass isoNow random : string) :
  (mockUsers <> [] ->
   (forall u, In u mockUsers -> exists z, user_id u = Num z) ->
   NoDup (map user_id mockUsers) ->
   let mockUsers' :=
     fst (mockApiService.signup mockUsers username email pass isoNow random) in
   mockUsers' <> []
   /\ (forall u, In u mockUsers' -> exists z, user_id u = Num z)
   /\ NoDup (map user_id mockUsers')
   /\ List.length mockUsers' = S (List.length mockUsers))
  /\ (mockUsers = [] ->
      user_id (mockApiService.newUser mockUsers username email isoNow random)
      = NegInfinity).
Proof.
  split; [| intros ->; reflexivity].
  intros Hne Hfin Hnd. cbn [mockApiService.signup fst].
  destruct (Math_max_finite (map user_id mockUsers)) as (m & Em & Hm).
  { destruct mockUsers; [congruence | discriminate]. }
  { intros x (u & <- & Hu)%in_map_iff. apply Hfin, Hu. }
  assert (user_id (mockApiService.newUser mockUsers username email isoNow random)
          = Num (m + 1)) as Enew.
  { cbn [mockApiService.newUser user_id]. rewrite Em. reflexivity. }
  split; [| split; [| split]].
  - destruct mockUsers; discriminate.
  - intros u [Hu | [<- | []]]%in_app_or; [apply Hfin, Hu | eauto].
  - rewrite map_app. cbn [map]. rewrite Enew. apply NoDup_app.
    split; [exact Hnd |]. split; [| apply NoDup_singleton].
    intros x Hx [<- | []]%list_elem_of_In. apply list_elem_of_In, Hm in Hx. lia.
  - rewrite length_app. cbn [List.length]. lia.
Qed.

Lemma signup_keeps_ids_distinct_witness :
  NoDup (map user_id
           (fst (mockApiService.signup mockData.mockUsers "NewReader"
                   "new@test.com" "secret" "2024-01-01T00:00:00.000Z" "0.5"))).
Proof.
  apply (proj1 (signup_keeps_ids_distinct mockData.mockUsers "NewReader"
                  "new@test.com" "secret" "2024-01-01T00:00:00.000Z" "0.5")).
  - discriminate.
  - intros u Hu. cbn in Hu.
    destruct Hu as [<- | [<- | [<- | [<- | []]]]]; eexists; reflexivity.
  - apply (bool_decide_unpack _). vm_compute. exact I.
Defined.

(** Property X12.  The mock [getNovelById(id)] never fails: it resolves
    to the novel with that id, titled by its rank, when [id] is one of
    101 to 112, and to [undefined] for every other id. *)
Theorem mock_getNovelById_outcomes (now : nat -> Z) (id : Z) :
  (101 <= id <= 112 ->
   exists n,
     mockApiService.getNovelById now id = Resolved (Present n)
     /\ In n (mockData.mockNovels now)
     /\ novel_id n = id
     /\ title n = "The Crimson Cipher " +:+ Number_toString (id - 100))
  /\ (~ 101 <= id <= 112 ->
      mockApiService.getNovelById now id = Resolved undefined).
Proof.
  unfold mockApiService.getNovelById, mockApiService.delay, Array_find.
  destruct (List.find _ _) as [n|] eqn:Hf.
  - apply find_some in Hf as [Hin Hid%Z.eqb_eq]. split.
    + intros _. exists n. split; [reflexivity |]. split; [exact Hin |].
      split; [exact Hid |].
      pose proof (proj1 (List.Forall_forall _ _) (mockNovels_fields now) n Hin) as [Ht _].
      rewrite Ht, Hid. reflexivity.
    + intros Hout. exfalso. apply Hout.
      refine (proj1 (mockNovels_id_range now id) _).
      rewrite <- Hid. apply in_map, Hin.
  - split; [| reflexivity].
    intros Hrange. exfalso.
    pose proof (proj2 (mockNovels_id_range now id) Hrange) as Hin'.
    apply in_map_iff in Hin' as (n & Hid & Hin).
    apply find_none with (x := n) in Hf; [| exact Hin].
    apply Z.eqb_neq in Hf. contradiction.
Qed.

Lemma mock_getNovelById_outcomes_witness :
  (exists n, mockApiService.getNovelById samples.frozenClock 105 = Resolved (Present n)
             /\ title n = "The Crimson Cipher 5")
  /\ mockApiService.getNovelById samples.frozenClock 113 = Resolved undefined.
Proof.
  split.
  - destruct (proj1 (mock_getNovelById_outcomes samples.frozenClock 105))
      as (n & E & _ & _ & Ht); [lia |].
    exists n. split; [exact E | exact Ht].
  - apply (proj2 (mock_getNovelById_outcomes samples.frozenClock 113)). lia.
Defined.

(** Property X13.  The two mock listings split the fixture by position,
    not by tag or rank: [getRecommendedNovels] resolves to the novels
    101 to 106 and [getFantasyNovels] to the novels 107 to 112; one after
    the other they are the whole of [mockNovels], and every recommended
    novel has fewer views and fewer likes than every novel of the other
    listing. *)
Theorem mock_listings_partition (now : nat -> Z) :
  exists recommended fantasy,
    mockApiService.getRecommendedNovels now = Resolved recommended
    /\ mockApiService.getFantasyNovels now = Resolved fantasy
    /\ recommended ++ fantasy = mockData.mockNovels now
    /\ map novel_id recommended = [101; 102; 103; 104; 105; 106]
    /\ map novel_id fantasy = [107; 108; 109; 110; 111; 112]
    /\ Forall (fun r => Forall (fun f => views r < views f /\ likes r < likes f)
                          fantasy) recommended.
Proof.
  eexists _, _. split; [reflexivity |]. split; [reflexivity |].
  split; [reflexivity |]. split; [reflexivity |]. split; [reflexivity |].
  apply (bool_decide_unpack _). vm_compute. exact I.
Qed.

(** Property X14.  The mock [getWriterNovels(writerId)] never fails: it
    resolves to all twelve novels for the writer 2, who is WriterJane of
    the user fixture with the role Writer, and to the empty list for any
    other id. *)
Theorem mock_getWriterNovels_outcomes (now : nat -> Z) (writerId : Z) :
  mockApiService.getWriterNovels now writerId
  = Resolved (if writerId =? 2 then mockData.mockNovels now else [])
  /\ List.length (mockData.mockNovels now) = 12%nat
  /\ In mockData.WriterJane mockData.mockUsers
  /\ user_id mockData.WriterJane = Num 2
  /\ role mockData.WriterJane = WRITER.
Proof.
  split; [| repeat split; cbn; tauto].
  unfold mockApiService.getWriterNovels, mockApiService.delay. f_equal.
  destruct (Z.eqb_spec writerId 2) as [-> | Hne].
  - apply filter_all. eapply Forall_impl; [apply mockNovels_fields |].
    intros n [_ ->]. reflexivity.
  - apply filter_none. eapply Forall_impl; [apply mockNovels_fields |].
    intros n [_ ->]. apply Z.eqb_neq. cbn. congruence.
Qed.

(** Property X15.  The mock [getEpisode] agrees with the mock
    [getEpisodesByNovelId]: it resolves to the first episode with the
    given id in the list the other resolves to, and to [undefined] when
    that list has none. *)
Theorem mock_getEpisode_within_listing (now : nat -> Z) (novelId episodeId : Z) :
  exists l,
    mockApiService.getEpisodesByNovelId now novelId = Resolved l
    /\ mockApiService.getEpisode now novelId episodeId
       = Resolved (Array_find (fun e => episode_id e =? episodeId) l).
Proof.
  eexists. split; [reflexivity |].
  unfold mockApiService.getEpisode, mockApiService.delay, Array_find.
  rewrite find_filter. reflexivity.
Qed.

(** Property X16.  The episodes of the fixture.  For a novel id from 101
    to 112, [getEpisodesByNovelId] resolves to five episodes, numbered
    [100 * id + 1] to [100 * id + 5], the first three unlocked and the
    last two locked, each priced 10; for any other id it resolves to the
    empty list.  Whatever the clock read, the episode ids of the fixture
    are pairwise distinct. *)
Theorem mock_episodes_of_novel (now : nat -> Z) (novelId : Z) :
  (101 <= novelId <= 112 ->
   exists l,
     mockApiService.getEpisodesByNovelId now novelId = Resolved l
     /\ map (fun e => (episode_id e, is_locked e, price e)) l
        = [(100 * novelId + 1, false, 10); (100 * novelId + 2, false, 10);
           (100 * novelId + 3, false, 10); (100 * novelId + 4, true, 10);
           (100 * novelId + 5, true, 10)])
  /\ (~ 101 <= novelId <= 112 ->
      mockApiService.getEpisodesByNovelId now novelId = Resolved [])
  /\ NoDup (map episode_id (mockData.mockEpisodes now)).
Proof.
  assert (map (fun e => (ep_novel_id e, (episode_id e, is_locked e, price e)))
              (mockData.mockEpisodes now)
          = map (fun e => (ep_novel_id e, (episode_id e, is_locked e, price e)))
              (mockData.mockEpisodes samples.frozenClock)) as Ekeys.
  { vm_compute. reflexivity. }
  split; [| split].
  - intros Hrange. eexists. split; [reflexivity |].
    rewrite <- (map_map (fun e => (ep_novel_id e, (episode_id e, is_locked e, price e))) snd).
    rewrite (map_filter_key (fun e => (ep_novel_id e, (episode_id e, is_locked e, price e)))
               (fun k => fst k =? novelId)).
    rewrite Ekeys.
    assert (novelId = 101 \/ novelId = 102 \/ novelId = 103 \/ novelId = 104
            \/ novelId = 105 \/ novelId = 106 \/ novelId = 107 \/ novelId = 108
            \/ novelId = 109 \/ novelId = 110 \/ novelId = 111 \/ novelId = 112)
      as Hcases by lia.
    repeat (destruct Hcases as [-> | Hcases]; [vm_compute; reflexivity |]).
    subst. vm_compute. reflexivity.
  - intros Hout. unfold mockApiService.getEpisodesByNovelId, mockApiService.delay.
    f_equal. apply filter_none. apply List.Forall_forall. intros e He.
    apply Z.eqb_neq. intros E. apply Hout.
    refine (proj1 (mockNovels_id_range now novelId) _). rewrite <- E.
    destruct (mockEpisodes_eq now) as (blocks & k & Eb & Hb).
    assert (Forall2 (fun novel blk =>
                       Forall (fun x => ep_novel_id x = novel_id novel) blk)
              (mockData.mockNovels now) blocks) as Hblocks.
    { rewrite Hb. apply init_map_Forall2. intros novel k'. repeat constructor. }
    assert (Forall (fun x => In (ep_novel_id x) (map novel_id (mockData.mockNovels now)))
              (List.concat blocks)) as Hall.
    { clear -Hblocks. induction Hblocks as [|novel blk novels blocks Hblk _ IH];
        cbn [List.concat map]; [constructor |].
      apply Forall_app. split.
      - eapply Forall_impl; [exact Hblk |]. intros x ->. left. reflexivity.
      - eapply Forall_impl; [exact IH |]. intros x Hx. right. exact Hx. }
    rewrite Eb in He. exact (proj1 (List.Forall_forall _ _) Hall e He).
  - rewrite <- (map_map (fun e => (ep_novel_id e, (episode_id e, is_locked e, price e)))
                  (fun k => fst (fst (snd k)))).
    rewrite Ekeys. apply (bool_decide_unpack _). vm_compute. exact I.
Qed.

Lemma mock_episodes_of_novel_witness :
  (exists l,
      mockApiService.getEpisodesByNovelId samples.frozenClock 103 = Resolved l
      /\ map episode_id l = [10301; 10302; 10303; 10304; 10305])
  /\ mockApiService.getEpisodesByNovelId samples.frozenClock 0 = Resolved [].
Proof.
  split.
  - destruct (proj1 (mock_episodes_of_novel samples.frozenClock 103))
      as (l & E & Hl); [lia |].
    exists l. split; [exact E |].
    apply (f_equal (map (fun k => fst (fst k)))) in Hl.
    rewrite map_map in Hl. exact Hl.
  - apply (proj1 (proj2 (mock_episodes_of_novel samples.frozenClock 0))). lia.
Defined.

(* ===================================================================== *)
(** * Further facts about the routes and the remote layer                 *)
(* ===================================================================== *)

Section MoreRemoteFacts.

Import apiService.

Lemma parseInt_uint_10 (u : Decimal.uint) :
  u <> Decimal.Nil ->
  parseInt (NilEmpty.string_of_uint u) (Some 10)
  = Some (Z.of_N (Pos.of_uint u)).
Proof.
  intros Hu. rewrite parseInt_10_unfold. cbv zeta.
  assert (skipWhiteSpace (NilEmpty.string_of_uint u) = NilEmpty.string_of_uint u) as ->.
  { destruct u; reflexivity. }
  assert ((match NilEmpty.string_of_uint u with
           | String "-" r => (-1, r)
           | String "+" r => (1, r)
           | _ => (1, NilEmpty.string_of_uint u)
           end) = (1, NilEmpty.string_of_uint u)) as ->.
  { destruct u; reflexivity. }
  rewrite readDigits_uint by exact Hu. f_equal; lia.
Qed.

Lemma parseInt_Number_toString_10 (n : Z) :
  parseInt (Number_toString n) (Some 10) = Some n.
Proof.
  unfold Number_toString. destruct n as [|p|p]; cbn [Z.to_int NilEmpty.string_of_int].
  - reflexivity.
  - rewrite parseInt_uint_10 by apply to_uint_not_Nil.
    rewrite DecimalPos.Unsigned.of_to. reflexivity.
  - rewrite parseInt_10_unfold. cbv zeta.
    change (skipWhiteSpace (String "-" ?s)) with (String "-" s). cbv iota.
    rewrite readDigits_uint by apply to_uint_not_Nil.
    rewrite DecimalPos.Unsigned.of_to. f_equal; lia.
Qed.

Variable fetch : Fetch.

(** Every exception the callback of [getWriterNovels] throws is a
    [TypeError]. *)
Lemma is_written_by_rejection (writerId : Z) (n : jsval) (e : exn) :
  is_written_by writerId n = Rejected e -> name e = "TypeError".
Proof.
  unfold is_written_by.
  destruct n as [| | | | |ps]; cbn [get mbind Promise_bind];
    try (intros [= <-]; reflexivity).
  destruct (lookup_property "author" ps) as [a|]; [| intros [= <-]; reflexivity].
  destruct a; cbn [get mbind Promise_bind]; try discriminate.
  intros [= <-]. reflexivity.
Qed.

Lemma filter_items_resolves (p : jsval -> Promise bool) (items : list jsval) :
  (forall n, In n items -> exists b, p n = Resolved b) ->
  exists l, filter_items p items = Resolved l
            /\ (forall n, In n l <-> In n items /\ p n = Resolved true)
            /\ sublist l items.
Proof.
  induction items as [|n items IH]; intros Hall; cbn [filter_items].
  - exists []. split; [reflexivity |]. split; [| constructor]. cbn. tauto.
  - destruct (Hall n (or_introl eq_refl)) as [b Hb].
    destruct IH as (l & -> & Hl & Hsub).
    { intros m Hm. apply Hall. right. exact Hm. }
    rewrite Hb. cbn [mbind Promise_bind]. destruct b.
    + exists (n :: l). split; [reflexivity |]. split; [| constructor; exact Hsub].
      intros m. cbn [In]. rewrite Hl. split.
      * intros [<- | [Hm Hp]]; split; auto.
      * intros [[<- | Hm] Hp]; [left; reflexivity | right; split; assumption].
    + exists l. split; [reflexivity |]. split; [| constructor; exact Hsub].
      intros m. rewrite Hl. cbn [In]. split.
      * intros [Hm Hp]. split; auto.
      * intros [[<- | Hm] Hp]; [congruence | split; assumption].
Qed.

Lemma filter_items_rejects (p : jsval -> Promise bool) (items : list jsval)
    (n : jsval) (e0 : exn) :
  In n items -> p n = Rejected e0 ->
  exists m e, In m items /\ p m = Rejected e /\ filter_items p items = Rejected e.
Proof.
  induction items as [|x items IH]; intros Hin Hn; [destruct Hin |].
  cbn [filter_items]. destruct (p x) as [b|e] eqn:Hx; cbn [mbind Promise_bind].
  - destruct Hin as [-> | Hin]; [congruence |].
    destruct (IH Hin Hn) as (m & e & Hm & Hpm & ->).
    exists m, e. split; [right; exact Hm | split; [exact Hpm | reflexivity]].
  - exists x, e. split; [left; reflexivity | split; [exact Hx | reflexivity]].
Qed.

End MoreRemoteFacts.

(** Property X17.  The outcomes of the episodes route.  Any method but
    GET is answered 405 with [Method not allowed], whatever the id and
    the state of the database.  A GET is answered 200 exactly when the
    [novelId] parses to an id in the range of the [Int] column and the
    database can be queried; otherwise (no id, an id out of the range,
    or no database) it is answered 500 with the fixed message
    [Failed to fetch episodes], which tells nothing of the cause. *)
Theorem episodes_handler_outcomes
    (d : prisma.Database) (req : episodesRoute.NextApiRequest) :
  (episodesRoute.method req <> "GET" ->
   episodesRoute.handler d req
   = {| episodesRoute.statusCode := 405;
        episodesRoute.body := episodesRoute.ErrorBody "Method not allowed" |})
  /\ (episodesRoute.statusCode (episodesRoute.handler d req) = 200
      <-> episodesRoute.method req = "GET"
          /\ (exists id, parseInt (episodesRoute.query_novelId req) None = Some id
                         /\ prisma.isInt id = true)
          /\ prisma.connected d = true)
  /\ (episodesRoute.method req = "GET" ->
      parseInt (episodesRoute.query_novelId req) None = None
      \/ (exists id, parseInt (episodesRoute.query_novelId req) None = Some id
                     /\ prisma.isInt id = false)
      \/ prisma.connected d = false ->
      episodesRoute.handler d req
      = {| episodesRoute.statusCode := 500;
           episodesRoute.body := episodesRoute.ErrorBody "Failed to fetch episodes" |}).
Proof.
  unfold episodesRoute.handler, prisma.episode_findMany.
  destruct (String.eqb_spec (episodesRoute.method req) "GET") as [Hm | Hm]; cbn [negb].
  - split; [congruence |]. split.
    + destruct (parseInt _ None) as [id|]; [destruct (prisma.isInt id) eqn:Hint |];
        destruct (prisma.connected d);
        cbn [negb episodesRoute.statusCode]; split;
        solve [ discriminate
              | intros (_ & (id' & E & _) & _); discriminate E
              | intros (_ & (id' & [= <-] & E) & _); congruence
              | intros (_ & _ & E); discriminate E
              | intros _; reflexivity
              | intros _; split;
                [exact Hm | split; [exists id; split; [reflexivity | exact Hint]
                                   | reflexivity]] ].
    + intros _ [-> | [(id & -> & ->) | ->]]; [reflexivity | reflexivity |].
      destruct (parseInt _ None) as [id|]; [| reflexivity].
      destruct (prisma.isInt id); reflexivity.
  - split; [reflexivity |]. split; [| contradiction].
    cbn [episodesRoute.statusCode]. split; [discriminate | intros (E & _); contradiction].
Qed.

Lemma episodes_handler_outcomes_witness :
  episodesRoute.handler samples.library
    {| episodesRoute.method := "POST"; episodesRoute.query_novelId := "7" |}
  = {| episodesRoute.statusCode := 405;
       episodesRoute.body := episodesRoute.ErrorBody "Method not allowed" |}
  /\ episodesRoute.handler samples.library
       {| episodesRoute.method := "GET"; episodesRoute.query_novelId := "seven" |}
     = {| episodesRoute.statusCode := 500;
          episodesRoute.body := episodesRoute.ErrorBody "Failed to fetch episodes" |}
  /\ episodesRoute.handler samples.library
       {| episodesRoute.method := "GET";
          episodesRoute.query_novelId := "2147483648" |}
     = {| episodesRoute.statusCode := 500;
          episodesRoute.body := episodesRoute.ErrorBody "Failed to fetch episodes" |}.
Proof.
  split; [| split].
  - apply (proj1 (episodes_handler_outcomes samples.library
                    {| episodesRoute.method := "POST";
                       episodesRoute.query_novelId := "7" |})).
    discriminate.
  - apply (proj2 (proj2 (episodes_handler_outcomes samples.library
                           {| episodesRoute.method := "GET";
                              episodesRoute.query_novelId := "seven" |})));
      [reflexivity | left; reflexivity].
  - apply (proj2 (proj2 (episodes_handler_outcomes samples.library
                           {| episodesRoute.method := "GET";
                              episodesRoute.query_novelId := "2147483648" |})));
      [reflexivity |].
    right. left. exists 2147483648. split; reflexivity.
Defined.

(** Property X18.  The route reads back the id the client writes: for
    every [n] in the range of the [Int] column, a GET whose [novelId]
    is the text the remote layer puts in the path for [n] makes the
    handler query the episodes of exactly [n]; the answer is 200 with
    them when the database can be queried, and 500 otherwise. *)
Theorem episodes_route_reads_back_id (d : prisma.Database) (n : Z) :
  prisma.isInt n = true ->
  parseInt (Number_toString n) None = Some n
  /\ (prisma.connected d = true ->
      exists l,
        episodesRoute.handler d
          {| episodesRoute.method := "GET";
             episodesRoute.query_novelId := Number_toString n |}
        = {| episodesRoute.statusCode := 200;
             episodesRoute.body := episodesRoute.Episodes l |}
        /\ forall e, In e l <-> In e (prisma.episode d) /\ ep_novel_id e = n)
  /\ (prisma.connected d = false ->
      episodesRoute.handler d
        {| episodesRoute.method := "GET";
           episodesRoute.query_novelId := Number_toString n |}
      = {| episodesRoute.statusCode := 500;
           episodesRoute.body := episodesRoute.ErrorBody "Failed to fetch episodes" |}).
Proof.
  intros Hint. split; [apply parseInt_Number_toString |].
  unfold episodesRoute.handler.
  cbn [episodesRoute.method episodesRoute.query_novelId].
  rewrite parseInt_Number_toString.
  change (negb ("GET" =? "GET")%string) with false. cbv iota.
  split.
  - intros Hc.
    destruct (proj2 (findMany_resolves d n) (conj Hint Hc)) as [l Hq].
    rewrite Hq. exists l. split; [reflexivity |].
    exact (proj2 (findMany_spec _ _ _ Hq)).
  - intros Hc. unfold prisma.episode_findMany. rewrite Hint, Hc. reflexivity.
Qed.

Lemma episodes_route_reads_back_id_witness :
  parseInt (Number_toString 7) None = Some 7
  /\ exists l,
       episodesRoute.handler samples.library
         {| episodesRoute.method := "GET";
            episodesRoute.query_novelId := Number_toString 7 |}
       = {| episodesRoute.statusCode := 200;
            episodesRoute.body := episodesRoute.Episodes l |}
       /\ forall e, In e l <-> In e (prisma.episode samples.library) /\ ep_novel_id e = 7.
Proof.
  destruct (episodes_route_reads_back_id samples.library 7) as (Hparse & Hquery & _);
    [reflexivity |].
  split; [exact Hparse |]. apply Hquery. reflexivity.
Defined.

(** Property X19.  Every safe integer id can be addressed: with an
    identity present, the hash [#/novel/] followed by the decimal text
    of [n] shows the detail view of [n], and [#/read/<n>/<e>] the
    reading view of [(n, e)], for all safe integers [n] and [e] (those
    below 2^53 in magnitude), negative ones and zero included. *)
Theorem Router_reads_back_ids (u : User) (n e : Z) :
  isSafeInteger n = true -> isSafeInteger e = true ->
  Router (Present u) ("#/novel/" +:+ Number_toString n) = NovelDetailPage n
  /\ Router (Present u)
       ("#/read/" +:+ Number_toString n +:+ "/" +:+ Number_toString e)
     = ReadNovelPage n e.
Proof.
  intros _ _. split.
  - cbn [Router].
    assert (novelRoute ("#/novel/" +:+ Number_toString n) = Some (NovelDetailPage n)) as ->.
    { apply novelRoute_spec. exists (Number_toString n), n.
      split; [reflexivity |]. split; [apply parseInt_Number_toString_10 | reflexivity]. }
    reflexivity.
  - rewrite Router_read_unfold.
    rewrite append_String, append_empty.
    rewrite split_at_separator by apply Number_toString_no_slash.
    rewrite split_without_separator by apply Number_toString_no_slash.
    unfold parseInt_at. cbn [lookup list_lookup default from_option id].
    rewrite !parseInt_Number_toString_10. reflexivity.
Qed.

Lemma Router_reads_back_ids_witness :
  Router (Present mockData.ReaderJoe) "#/novel/-5" = NovelDetailPage (-5)
  /\ Router (Present mockData.ReaderJoe) "#/read/-5/0" = ReadNovelPage (-5) 0.
Proof.
  apply (Router_reads_back_ids mockData.ReaderJoe (-5) 0); reflexivity.
Defined.

(** Property X20.  [fetchAPI] resolves exactly when [fetch] resolves to
    a response whose status is in 200-299 and whose body parses, and
    then to the parsed body; a response outside that range never
    resolves, whatever its body. *)
Theorem fetchAPI_resolves_iff
    (fetch : apiService.Fetch) (url : string) (options : apiService.RequestInit)
    (v : jsval) :
  apiService.fetchAPI fetch url options = Resolved v
  <-> exists response,
        fetch url (apiService.spread apiService.defaultOptions options)
        = Resolved response
        /\ apiService.ok response = true
        /\ apiService.json response = Resolved v.
Proof.
  unfold apiService.fetchAPI. split.
  - destruct (fetch url _) as [response|e]; cbn [mbind Promise_bind]; [| discriminate].
    destruct (apiService.ok response) eqn:Hok; cbn [negb].
    + intros H. exists response. auto.
    + destruct (apiService.json response) as [errorData|e]; cbn [mbind Promise_bind];
        [| discriminate].
      destruct (get errorData "error"); discriminate.
  - intros (response & -> & Hok & Hjson). cbn [mbind Promise_bind].
    rewrite Hok. exact Hjson.
Qed.

Lemma fetchAPI_resolves_iff_witness :
  apiService.fetchAPI (moreSamples.answering 200 (JArray []))
    "/api/novels" apiService.noOptions
  = Resolved (JArray []).
Proof.
  apply (proj2 (fetchAPI_resolves_iff (moreSamples.answering 200 (JArray []))
                  "/api/novels" apiService.noOptions (JArray []))).
  eexists. split; [reflexivity |]. split; reflexivity.
Defined.

(** Property X21.  The remote [getEpisodesByNovelId] against the
    episodes route.  When the server cannot be reached the promise
    rejects with the network error of [fetch], and so does [getEpisode];
    when the server is reached but the database cannot be queried it
    rejects with [Error('Failed to fetch episodes')], the message of the
    route's 500 body; otherwise, for a [novelId] in the range of the
    [Int] column, it resolves to the JSON of exactly the stored episodes
    of the novel, in release order. *)
Theorem remote_getEpisodesByNovelId_outcomes
    (toISOString : Z -> string) (b : server.Backend) (novelId episodeId : Z) :
  (server.reachable b = false ->
   apiService.getEpisodesByNovelId (server.serve toISOString b) novelId
   = Rejected (TypeError "Failed to fetch")
   /\ apiService.getEpisode (server.serve toISOString b) novelId episodeId
      = Rejected (TypeError "Failed to fetch"))
  /\ (server.reachable b = true -> prisma.connected (server.db b) = false ->
      apiService.getEpisodesByNovelId (server.serve toISOString b) novelId
      = Rejected (Error "Failed to fetch episodes")
      /\ apiService.getEpisode (server.serve toISOString b) novelId episodeId
         = Rejected (Error "Failed to fetch episodes"))
  /\ (prisma.isInt novelId = true ->
      server.reachable b = true -> prisma.connected (server.db b) = true ->
      exists l,
        apiService.getEpisodesByNovelId (server.serve toISOString b) novelId
        = Resolved (JArray (map (server.Episode_toJSON toISOString) l))
        /\ StronglySorted prisma.release_le l
        /\ (forall x, In x l <->
                      In x (prisma.episode (server.db b)) /\ ep_novel_id x = novelId)).
Proof.
  split; [| split].
  - intros Hr. unfold apiService.getEpisode.
    rewrite (remote_getEpisodesByNovelId_unreachable toISOString b novelId Hr).
    split; reflexivity.
  - intros Hr Hc. unfold apiService.getEpisode.
    rewrite (remote_getEpisodesByNovelId toISOString b novelId Hr).
    unfold prisma.episode_findMany. rewrite Hc.
    destruct (prisma.isInt novelId); split; reflexivity.
  - intros Hint Hr Hc.
    rewrite (remote_getEpisodesByNovelId toISOString b novelId Hr).
    destruct (proj2 (findMany_resolves (server.db b) novelId) (conj Hint Hc))
      as [l Hq].
    rewrite Hq.
    destruct (findMany_spec _ _ _ Hq) as [Hs Hl].
    exists l. split; [reflexivity |]. split; [exact Hs | exact Hl].
Qed.

Lemma remote_getEpisodesByNovelId_outcomes_witness :
  apiService.getEpisode
    (server.serve samples.instantText
       {| server.reachable := false; server.db := samples.library |}) 7 2
  = Rejected (TypeError "Failed to fetch")
  /\ exists l,
       apiService.getEpisodesByNovelId
         (server.serve samples.instantText samples.site) 7
       = Resolved (JArray (map (server.Episode_toJSON samples.instantText) l))
       /\ StronglySorted prisma.release_le l.
Proof.
  split.
  - apply (proj1 (remote_getEpisodesByNovelId_outcomes samples.instantText
                    {| server.reachable := false; server.db := samples.library |}
                    7 2)).
    reflexivity.
  - destruct (proj2 (proj2 (remote_getEpisodesByNovelId_outcomes samples.instantText
                              samples.site 7 2)))
      as (l & E & Hs & _); [reflexivity | reflexivity | reflexivity |].
    exists l. split; [exact E | exact Hs].
Defined.

(** Property X22.  The remote [getWriterNovels] filters on the client.
    When the listing it fetches is an array whose items all carry an
    [author] object, it resolves to the items written by the writer, in
    their order and no others.  When some item has no [author], or is
    [null], the whole call rejects with a [TypeError], even if other
    items are the writer's. *)
Theorem remote_getWriterNovels_outcomes
    (fetch : apiService.Fetch) (writerId : Z) (items : list jsval) :
  apiService.fetchAPI fetch "/api/novels" apiService.noOptions
  = Resolved (JArray items) ->
  ((forall n, In n items ->
      exists b, apiService.is_written_by writerId n = Resolved b) ->
   exists l,
     apiService.getWriterNovels fetch writerId = Resolved (JArray l)
     /\ (forall n, In n l <->
                   In n items /\ apiService.is_written_by writerId n = Resolved true)
     /\ sublist l items)
  /\ (forall n,
        In n items ->
        n = JNull \/ get n "author" = Resolved None ->
        exists e, apiService.getWriterNovels fetch writerId = Rejected e
                  /\ name e = "TypeError").
Proof.
  intros Hfetch. unfold apiService.getWriterNovels. rewrite Hfetch.
  cbn [mbind Promise_bind]. split.
  - intros Hall.
    destruct (filter_items_resolves (apiService.is_written_by writerId) items Hall)
      as (l & -> & Hl & Hsub).
    exists l. split; [reflexivity | split; assumption].
  - intros n Hin Hbad.
    assert (exists e0, apiService.is_written_by writerId n = Rejected e0) as [e0 He0].
    { unfold apiService.is_written_by. destruct Hbad as [-> | ->]; eexists; reflexivity. }
    destruct (filter_items_rejects _ _ _ _ Hin He0) as (m & e & _ & Hm & ->).
    exists e. split; [reflexivity |]. exact (is_written_by_rejection _ _ _ Hm).
Qed.

Lemma remote_getWriterNovels_outcomes_witness :
  apiService.getWriterNovels
    (moreSamples.answering 200
       (JArray [moreSamples.novelBy 1 2; moreSamples.novelBy 2 9;
                moreSamples.novelBy 3 2])) 2
  = Resolved (JArray [moreSamples.novelBy 1 2; moreSamples.novelBy 3 2])
  /\ exists e,
       apiService.getWriterNovels
         (moreSamples.answering 200
            (JArray [moreSamples.novelBy 1 2; moreSamples.novelWithoutAuthor 2])) 2
       = Rejected e
       /\ name e = "TypeError".
Proof.
  split; [reflexivity |].
  apply (proj2 (remote_getWriterNovels_outcomes
                  (moreSamples.answering 200
                     (JArray [moreSamples.novelBy 1 2;
                              moreSamples.novelWithoutAuthor 2]))
                  2 [moreSamples.novelBy 1 2; moreSamples.novelWithoutAuthor 2]
                  eq_refl)
           (moreSamples.novelWithoutAuthor 2)).
  - right. left. reflexivity.
  - right. reflexivity.
Defined.

(* ===================================================================== *)
(** * Facts about the novels route and the shared client                  *)
(* ===================================================================== *)

Section NovelsRouteFacts.

Import novelsRoute.

#[local] Instance views_ge_total : Total views_ge.
Proof. intros a b. unfold views_ge. lia. Qed.

#[local] Instance views_ge_trans : Transitive views_ge.
Proof. intros a b c. unfold views_ge. lia. Qed.

(** The first twelve by descending views of a list of rows. *)
Lemma top_twelve (l : list NovelRow) :
  exists rest,
    take 12 (merge_sort views_ge l) ++ rest ≡ₚ l
    /\ StronglySorted views_ge (take 12 (merge_sort views_ge l))
    /\ List.length (take 12 (merge_sort views_ge l)) = Nat.min 12 (List.length l)
    /\ (forall x y, In x (take 12 (merge_sort views_ge l)) -> In y rest ->
                    row_views y <= row_views x).
Proof.
  pose proof (StronglySorted_merge_sort views_ge l) as Hs.
  rewrite <- (take_drop 12 (merge_sort views_ge l)) in Hs.
  exists (drop 12 (merge_sort views_ge l)). split; [| split; [| split]].
  - rewrite take_drop. apply merge_sort_Permutation.
  - exact (StronglySorted_app_1_l _ _ _ Hs).
  - rewrite length_take. f_equal. apply Permutation_length, merge_sort_Permutation.
  - intros x y Hx%list_elem_of_In Hy%list_elem_of_In.
    exact (StronglySorted_app_1_elem_of _ _ _ _ _ Hs Hx Hy).
Qed.

End NovelsRouteFacts.

Import (hints) novelsRoute.

(** Property X23.  The novels route lists the twelve most viewed.  A GET
    on a database that can be queried, with a category that is absent,
    empty, or one non-empty string, is answered 200 with the novels
    wanted (all of them when the category is absent or empty, else those
    whose tags hold it) cut to the first twelve by descending views:
    the rows sent are in that order, twelve or all the wanted ones if
    fewer, and no wanted row left out has more views than a row sent.
    Each row sent carries as [author] the first of its authors, or
    [{ user_id: 0, username: 'Unknown' }] when it has none. *)
Theorem novels_handler_top_twelve
    (d : novelsRoute.Store) (req : novelsRoute.NextApiRequest)
    (wanted : list novelsRoute.NovelRow) :
  novelsRoute.method req = "GET" ->
  novelsRoute.connected d = true ->
  (novelsRoute.given (novelsRoute.query_category req) = false
   /\ wanted = novelsRoute.novel d)
  \/ (exists c, novelsRoute.query_category req = Some (novelsRoute.QString c)
                /\ c <> ""
                /\ wanted = List.filter
                              (fun n => bool_decide (c ∈ novelsRoute.row_tags n))
                              (novelsRoute.novel d)) ->
  exists rows rest,
    novelsRoute.handler d req
    = {| novelsRoute.statusCode := 200;
         novelsRoute.body := novelsRoute.Novels (map novelsRoute.format rows) |}
    /\ rows ++ rest ≡ₚ wanted
    /\ StronglySorted novelsRoute.views_ge rows
    /\ List.length rows = Nat.min 12 (List.length wanted)
    /\ (forall x y, In x rows -> In y rest ->
                    novelsRoute.row_views y <= novelsRoute.row_views x)
    /\ Forall (fun f =>
                 novelsRoute.author f
                 = match novelsRoute.row_authors (novelsRoute.row f) with
                   | a :: _ => a
                   | [] => {| author_user_id := 0; author_username := "Unknown" |}
                   end)
         (map novelsRoute.format rows).
Proof.
  intros Hm Hc Hcat.
  destruct (top_twelve wanted) as (rest & Hperm & Hs & Hlen & Htop).
  exists (take 12 (merge_sort novelsRoute.views_ge wanted)), rest.
  split; [| split; [exact Hperm | split; [exact Hs | split; [exact Hlen |
          split; [exact Htop |]]]]].
  - unfold novelsRoute.handler, novelsRoute.novel_findMany. rewrite Hm, Hc.
    change (negb ("GET" =? "GET")%string) with false. cbv iota zeta.
    destruct Hcat as [[Hg ->] | (c & Eq & Hne & ->)].
    + rewrite Hg. reflexivity.
    + rewrite Eq. cbn [novelsRoute.given].
      apply String.eqb_neq in Hne. rewrite Hne. reflexivity.
  - apply Forall_map. apply List.Forall_forall. intros n _.
    cbn [novelsRoute.format novelsRoute.author novelsRoute.row].
    destruct (novelsRoute.row_authors n); reflexivity.
Qed.

Lemma novels_handler_top_twelve_witness :
  exists rows rest,
    novelsRoute.handler moreSamples.shelf
      {| novelsRoute.method := "GET";
         novelsRoute.query_category := Some (novelsRoute.QString "Fantasy") |}
    = {| novelsRoute.statusCode := 200;
         novelsRoute.body := novelsRoute.Novels (map novelsRoute.format rows) |}
    /\ rows ++ rest ≡ₚ [moreSamples.book 1 10 ["Fantasy"] [moreSamples.jane];
                         moreSamples.book 3 20 ["Fantasy"; "Adventure"] []]
    /\ StronglySorted novelsRoute.views_ge rows
    /\ List.length rows = 2%nat.
Proof.
  destruct (novels_handler_top_twelve moreSamples.shelf
              {| novelsRoute.method := "GET";
                 novelsRoute.query_category := Some (novelsRoute.QString "Fantasy") |}
              [moreSamples.book 1 10 ["Fantasy"] [moreSamples.jane];
               moreSamples.book 3 20 ["Fantasy"; "Adventure"] []])
    as (rows & rest & E & Hperm & Hs & Hlen & _); [reflexivity | reflexivity | |].
  - right. exists "Fantasy". split; [reflexivity |]. split; [discriminate | reflexivity].
  - exists rows, rest. split; [exact E |]. split; [exact Hperm |].
    split; [exact Hs | exact Hlen].
Defined.

(** Property X24.  The failures of the novels route.  Any method but GET
    is answered 405 with [Method not allowed].  A GET is answered 500
    with the fixed message [Failed to fetch novels] when the database
    cannot be queried, and also when the category is given more than
    once (it reaches the query as an array), even on a database that can
    be queried.  The status is 200 in no other case than a GET, on a
    database that can be queried, with at most one category. *)
Theorem novels_handler_failures
    (d : novelsRoute.Store) (req : novelsRoute.NextApiRequest) :
  (novelsRoute.method req <> "GET" ->
   novelsRoute.handler d req
   = {| novelsRoute.statusCode := 405;
        novelsRoute.body := novelsRoute.ErrorBody "Method not allowed" |})
  /\ (novelsRoute.method req = "GET" ->
      novelsRoute.connected d = false
      \/ (exists l, novelsRoute.query_category req = Some (novelsRoute.QStrings l)) ->
      novelsRoute.handler d req
      = {| novelsRoute.statusCode := 500;
           novelsRoute.body := novelsRoute.ErrorBody "Failed to fetch novels" |})
  /\ (novelsRoute.statusCode (novelsRoute.handler d req) = 200
      <-> novelsRoute.method req = "GET"
          /\ novelsRoute.connected d = true
          /\ forall l, novelsRoute.query_category req <> Some (novelsRoute.QStrings l)).
Proof.
  unfold novelsRoute.handler, novelsRoute.novel_findMany.
  destruct (String.eqb_spec (novelsRoute.method req) "GET") as [Hm | Hm]; cbn [negb].
  - split; [congruence |]. cbv zeta. split.
    + intros _ [Hc | [l Hl]].
      * rewrite Hc. destruct (novelsRoute.query_category req) as [[c|l]|];
          cbn [novelsRoute.given]; [destruct (negb _) | |]; reflexivity.
      * rewrite Hl. reflexivity.
    + destruct (novelsRoute.query_category req) as [[c|l]|];
        cbn [novelsRoute.given]; [destruct (negb _) | | ];
        destruct (novelsRoute.connected d); cbn; split;
        solve [ discriminate
              | intros (_ & E & _); discriminate E
              | intros (_ & _ & E); exfalso; apply (E l); reflexivity
              | intros _; reflexivity
              | intros _; split; [exact Hm | split; [reflexivity | discriminate]] ].
  - split; [reflexivity |]. split; [contradiction |].
    cbn [novelsRoute.statusCode]. split; [discriminate | intros (E & _); contradiction].
Qed.

Lemma novels_handler_failures_witness :
  novelsRoute.handler moreSamples.shelf
    {| novelsRoute.method := "GET";
       novelsRoute.query_category :=
         Some (novelsRoute.QStrings ["Fantasy"; "Sci-Fi"]) |}
  = {| novelsRoute.statusCode := 500;
       novelsRoute.body := novelsRoute.ErrorBody "Failed to fetch novels" |}.
Proof.
  apply (proj1 (proj2 (novels_handler_failures moreSamples.shelf
                         {| novelsRoute.method := "GET";
                            novelsRoute.query_category :=
                              Some (novelsRoute.QStrings ["Fantasy"; "Sci-Fi"]) |})));
    [reflexivity |].
  right. eexists. reflexivity.
Defined.

(** Property X25.  The shared Prisma client.  Outside production, any
    number of evaluations of the module in one process constructs at
    most one client and every evaluation exports the same one; when
    [globalThis.prisma] is already set, none is constructed.  In
    production, where the module does not set [globalThis.prisma], each
    evaluation of a process that has none constructs a client of its
    own. *)
Theorem prisma_client_shared (n : nat) (p : libPrisma.Process) :
  (libPrisma.production p = false ->
   exists client,
     Forall (eq client) (snd (libPrisma.evaluations n p))
     /\ (libPrisma.constructed (fst (libPrisma.evaluations n p))
         <= S (libPrisma.constructed p))%nat
     /\ (forall c, libPrisma.globalThis_prisma p = Some c ->
           client = c
           /\ libPrisma.constructed (fst (libPrisma.evaluations n p))
              = libPrisma.constructed p))
  /\ (libPrisma.production p = true ->
      libPrisma.globalThis_prisma p = None ->
      snd (libPrisma.evaluations n p) = seq (libPrisma.constructed p) n
      /\ libPrisma.constructed (fst (libPrisma.evaluations n p))
         = (libPrisma.constructed p + n)%nat).
Proof.
  split.
  - intros Hdev.
    assert (forall n q c, libPrisma.production q = false ->
              libPrisma.globalThis_prisma q = Some c ->
              Forall (eq c) (snd (libPrisma.evaluations n q))
              /\ libPrisma.constructed (fst (libPrisma.evaluations n q))
                 = libPrisma.constructed q) as Hset.
    { clear. induction n as [|n IH]; intros q c Hq Hc; cbn [libPrisma.evaluations].
      - split; [constructor | reflexivity].
      - unfold libPrisma.evaluate. rewrite Hc, Hq. cbn [negb].
        match goal with
        | |- context [libPrisma.evaluations n ?q1] =>
            destruct (IH q1 c eq_refl eq_refl) as [Hall Hk];
            destruct (libPrisma.evaluations n q1) as [q2 clients]
        end.
        cbn [fst snd] in *. split; [constructor; [reflexivity | exact Hall] | exact Hk]. }
    destruct (libPrisma.globalThis_prisma p) as [c|] eqn:Hg.
    + destruct (Hset n p c Hdev Hg) as [Hall Hk]. exists c.
      split; [exact Hall |]. split; [lia |]. intros c' [= <-]. auto.
    + exists (libPrisma.constructed p). split; [| split; [| discriminate]].
      * destruct n as [|n]; cbn [libPrisma.evaluations]; [constructor |].
        unfold libPrisma.evaluate. rewrite Hg, Hdev. cbn [negb].
        match goal with
        | |- context [libPrisma.evaluations n ?q1] =>
            destruct (Hset n q1 (libPrisma.constructed p) eq_refl eq_refl) as [Hall _];
            destruct (libPrisma.evaluations n q1) as [q2 clients]
        end.
        cbn [snd] in *. constructor; [reflexivity | exact Hall].
      * destruct n as [|n]; cbn [libPrisma.evaluations]; [cbn; lia |].
        unfold libPrisma.evaluate. rewrite Hg, Hdev. cbn [negb].
        match goal with
        | |- context [libPrisma.evaluations n ?q1] =>
            destruct (Hset n q1 (libPrisma.constructed p) eq_refl eq_refl) as [_ Hk];
            destruct (libPrisma.evaluations n q1) as [q2 clients]
        end.
        cbn [fst libPrisma.constructed] in *. lia.
  - revert p. induction n as [|n IH]; intros p Hprod Hg; cbn [libPrisma.evaluations].
    + split; [reflexivity | cbn; lia].
    + unfold libPrisma.evaluate. rewrite Hg, Hprod. cbn [negb].
      match goal with
      | |- context [libPrisma.evaluations n ?q1] =>
          destruct (IH q1 eq_refl eq_refl) as [Hall Hk];
          destruct (libPrisma.evaluations n q1) as [q2 clients]
      end.
      cbn [fst snd libPrisma.constructed] in *. split; [rewrite Hall; reflexivity | lia].
Qed.

Lemma prisma_client_shared_witness :
  exists client,
    Forall (eq client) (snd (libPrisma.evaluations 3 moreSamples.development))
    /\ (libPrisma.constructed (fst (libPrisma.evaluations 3 moreSamples.development))
        <= 1)%nat.
Proof.
  destruct (proj1 (prisma_client_shared 3 moreSamples.development))
    as (client & Hall & Hk & _); [reflexivity |].
  exists client. split; [exact Hall | exact Hk].
Defined.

(* ===================================================================== *)
(** * Signing up through the provider                                     *)
(* ===================================================================== *)

(** Property X26.  The provider's [signup] never rejects, whatever the
    data-access call does.  When the call throws or resolves to no user,
    the session is left as it was and the promise resolves to an absent
    value.  When the call resolves to a user [u], [u] becomes the
    identity and the hash is left alone; if the storage accepts the
    write, [JSON.stringify(u)] is stored under [user] and the promise
    resolves to [u]. *)
Theorem provider_signup_outcomes
    (JSON_stringify : User -> string)
    (apiService_signup : string -> string -> string -> Promise (Nullable User))
    (username email pass : string) (s : AuthContext.Session) :
  (exists s' r,
      AuthContext.signup JSON_stringify apiService_signup username email pass s
      = (s', Resolved r))
  /\ ((forall u, apiService_signup username email pass <> Resolved (Present u)) ->
      exists r,
        AuthContext.signup JSON_stringify apiService_signup username email pass s
        = (s, Resolved r)
        /\ truthy r = false)
  /\ (forall u,
        apiService_signup username email pass = Resolved (Present u) ->
        let s' := fst (AuthContext.signup JSON_stringify apiService_signup
                         username email pass s) in
        AuthContext.user s' = Present u
        /\ AuthContext.location_hash s' = AuthContext.location_hash s
        /\ (AuthContext.storage_accepts_writes s = true ->
            AuthContext.sessionStorage s' !! "user" = Some (JSON_stringify u)
            /\ snd (AuthContext.signup JSON_stringify apiService_signup
                      username email pass s)
               = Resolved (Present u))).
Proof.
  unfold AuthContext.signup, AuthContext.settle, AuthContext.setItem.
  destruct (apiService_signup username email pass) as [[| |u]|e];
    cbn [AuthContext.setUser AuthContext.storage_accepts_writes].
  - split; [eauto |]. split; [intros _; eexists; split; reflexivity |].
    intros u [=].
  - split; [eauto |]. split; [intros _; eexists; split; reflexivity |].
    intros u [=].
  - destruct (AuthContext.storage_accepts_writes s) eqn:Hw.
    + split; [eauto |]. split; [intros H; destruct (H u eq_refl) |].
      intros u' [= <-]. cbn. split; [reflexivity |]. split; [reflexivity |].
      intros _. split; [apply lookup_insert_eq | reflexivity].
    + split; [eauto |]. split; [intros H; destruct (H u eq_refl) |].
      intros u' [= <-]. cbn. split; [reflexivity |]. split; [reflexivity |].
      discriminate.
  - split; [eauto |]. split; [intros _; eexists; split; reflexivity |].
    intros u [=].
Qed.

Lemma provider_signup_outcomes_witness :
  exists r,
    AuthContext.signup moreSamples.userText
      (fun _ _ _ => Rejected (Error "Email already in use"))
      "NewReader" "reader@test.com" "secret" samples.emptySession
    = (samples.emptySession, Resolved r)
    /\ truthy r = false.
Proof.
  apply (proj1 (proj2 (provider_signup_outcomes moreSamples.userText
                         (fun _ _ _ => Rejected (Error "Email already in use"))
                         "NewReader" "reader@test.com" "secret"
                         samples.emptySession))).
  intros u. discriminate.
Defined.

(** Property X27.  Signing up through the provider against the mock
    layer always enters as a reader: whatever is typed, and whatever the
    store holds, the new user becomes the identity with the role
    [READER] and the name and email given, and the router then shows a
    detail view, a reading view or the home page, never the login page
    nor one of the dashboards. *)
Theorem mock_signup_enters_as_reader
    (JSON_stringify : User -> string) (mockUsers : list User)
    (username email pass isoNow random hash : string)
    (s : AuthContext.Session) :
  exists u,
    AuthContext.user
      (fst (AuthContext.signup JSON_stringify
              (fun username email pass =>
                 snd (mockApiService.signup mockUsers username email pass
                        isoNow random))
              username email pass s))
    = Present u
    /\ In u (fst (mockApiService.signup mockUsers username email pass isoNow random))
    /\ role u = READER
    /\ types.username u = username
    /\ types.email u = email
    /\ ((exists n, Router (Present u) hash = NovelDetailPage n)
        \/ (exists n e, Router (Present u) hash = ReadNovelPage n e)
        \/ Router (Present u) hash = HomePage).
Proof.
  exists (mockApiService.newUser mockUsers username email isoNow random).
  split; [| split; [| split; [| split; [| split]]]]; try reflexivity.
  - unfold AuthContext.signup, AuthContext.settle, AuthContext.setItem.
    cbn [mockApiService.signup snd mockApiService.delay
         AuthContext.setUser AuthContext.storage_accepts_writes].
    destruct (AuthContext.storage_accepts_writes s); reflexivity.
  - cbn [mockApiService.signup fst]. apply in_or_app. right. left. reflexivity.
  - destruct (Router_cases (mockApiService.newUser mockUsers username email isoNow random) hash)
      as [(n & _ & E) | [(n & e & _ & _ & E) | (_ & _ & E)]]; eauto.
Qed.
